(** * Note repository of the voice-note application (app.py)

    The application glues external services together.  The functions
    verified here are the ones of app.py that talk to the OpenAI embedding
    endpoint and to the Qdrant vector store:

      - [assure_db_collection_exists]  (app.py, lines 51-63)
      - [get_embedding]                (app.py, lines 65-72)
      - [add_note_to_db]               (app.py, lines 74-85)
      - [list_notes_from_db]           (app.py, lines 87-110)

    They are embedded as computations of a small state-and-exception monad
    over a [World]: the contents of the vector store and the chronological
    log of every call made to an external service.

    The services themselves are not code of the application.  The embedding
    endpoint, the size of a vector, the similarity function of the store and
    the order of scores are parameters of the development.  The store is
    modelled by the documented behaviour of the Qdrant operations the
    application uses: a collection is created once, with a vector size and
    a metric; a point is upserted under its exact id, if its vector has the
    size of the collection; a page lists points in id order; a search
    returns the nearest points, best first.  Failures that do not depend on
    the state of the store (connectivity, credentials) and the output
    written with [print] are not modelled. *)

From stdpp Require Import base option list sorting gmap strings pretty.
From Stdlib Require Import ZArith Lia.
From Stdlib.Strings Require Import Byte.

Local Open Scope Z_scope.
Local Open Scope string_scope.
Local Open Scope list_scope.

(** ** Constants of app.py (lines 12-14) *)

Definition EMBEDDING_MODEL : string := "text-embedding-3-large".
Definition EMBEDDING_DIM : Z := 3072.
Definition QDRANT_COLLECTION_NAME : string := "notes".

(** ** Data exchanged with the services *)

(** qdrant_client.models.Distance *)
Inductive Distance := COSINE | EUCLID | DOT | MANHATTAN.

(** qdrant_client.models.VectorParams(size=..., distance=...) *)
Record VectorParams := { vp_size : Z; vp_distance : Distance }.

(** The keyword arguments of openai_client.embeddings.create. *)
Record EmbeddingRequest :=
  { er_input : list string; er_model : string; er_dimensions : Z }.

(** Exceptions.  The application defines no exception class of its own and
    catches nothing: whatever a call raises reaches the caller.
    [EmbeddingError] stands for any exception that leaves [get_embedding]
    (the endpoint raised, or its answer had no first element), [StoreError]
    for any exception raised by a call to the vector store, and [KeyError]
    for a payload without the requested key. *)
Inductive Exception := EmbeddingError | StoreError | KeyError.

Inductive Outcome (A : Type) :=
| Return (a : A)
| Raise (e : Exception).
Arguments Return {A} a.
Arguments Raise {A} e.

(** A payload is a Python dict with string keys; the only values the
    application writes and reads are strings. *)
Abbreviation Payload := (gmap string string).

(** The dict built for each listed note (lines 93-96 and 106-109). *)
Record SearchResult (Score : Type) :=
  { text : string; score : option Score }.
Arguments text {Score} _.
Arguments score {Score} _.

Section NoteRepository.

(** Embedding vectors and similarity scores are floating point data that
    the application only passes along; they are kept abstract.  Of a vector
    only its number of components matters, to the store. *)
Context {Vec Score : Type}.
Variable dim : Vec → Z.

(** qdrant_client.models.PointStruct(id=..., vector=..., payload=...) *)
Record PointStruct :=
  { pt_id : Z; pt_vector : Vec; pt_payload : Payload }.

(** What the store keeps under a point id. *)
Record StoredPoint := { sp_vector : Vec; sp_payload : Payload }.

(** A point as [scroll] returns it (payload included, vector left out, as
    is the default of the client). *)
Record Record_ := { rec_id : Z; rec_payload : Payload }.

(** A point as [search] returns it. *)
Record ScoredPoint :=
  { scp_id : Z; scp_score : Score; scp_payload : Payload }.

(** A collection: its vector configuration, fixed at creation, and its
    points by id. *)
Record Collection :=
  { config : VectorParams; points : gmap Z StoredPoint }.

(** Every call made to an external service, with its arguments. *)
Inductive Call :=
| CollectionExists (collection_name : string)
| CreateCollection (collection_name : string) (vectors_config : VectorParams)
| Count (collection_name : string)
| Upsert (collection_name : string) (pts : list PointStruct)
| Scroll (collection_name : string) (limit : Z)
| Search (collection_name : string) (query_vector : Vec) (limit : Z)
| EmbeddingsCreate (req : EmbeddingRequest).

(** The state the functions run in: the collections of the store by name
    and the log of calls, oldest first. *)
Record World :=
  { qdrant : gmap string Collection; calls : list Call }.

(** ** The monad: state passing with exceptions.  A raised exception keeps
    the state reached so far (calls already made stay made). *)
Definition M (A : Type) : Type := World → Outcome A * World.

Definition ret {A} (a : A) : M A := λ w, (Return a, w).
Definition raise {A} (e : Exception) : M A := λ w, (Raise e, w).
Definition bind {A B} (m : M A) (k : A → M B) : M B :=
  λ w, match m w with
       | (Return a, w') => k a w'
       | (Raise e, w') => (Raise e, w')
       end.
Definition log (c : Call) : M unit :=
  λ w, (Return tt, {| qdrant := qdrant w; calls := calls w ++ [c] |}).
Definition get_store : M (gmap string Collection) := λ w, (Return (qdrant w), w).
Definition put_store (q : gmap string Collection) : M unit :=
  λ w, (Return tt, {| qdrant := q; calls := calls w |}).

#[global] Instance M_ret : MRet M := @ret.
#[global] Instance M_bind : MBind M := λ A B k m, bind m k.

(** A for loop that appends one element per item to a result list. *)
Fixpoint for_append {A B} (f : A → M B) (l : list A) : M (list B) :=
  match l with
  | [] => ret []
  | a :: l' => b ← f a; bs ← for_append f l'; ret (b :: bs)
  end.

(** ** The services *)

(** The embedding endpoint: [None] when the call raises, otherwise the
    list [data] of the response, one embedding per element. *)
Variable embeddings_create : EmbeddingRequest → option (list Vec).

(** The similarity the store computes between a query vector and a stored
    vector under the collection's metric, and the order of scores. *)
Variable similarity : Distance → Vec → Vec → Score.
Variable score_le : relation Score.
Context `{!RelDecision score_le}.

(** openai_client.embeddings.create(...) *)
Definition openai_embeddings_create (req : EmbeddingRequest) : M (list Vec) :=
  log (EmbeddingsCreate req);;
  match embeddings_create req with
  | Some data => ret data
  | None => raise EmbeddingError
  end.

(** qdrant_client.collection_exists(name) *)
Definition qdrant_collection_exists (name : string) : M bool :=
  log (CollectionExists name);;
  q ← get_store;
  ret (bool_decide (is_Some (q !! name))).

(** qdrant_client.create_collection(name, vectors_config): creating a
    collection that exists is an error of the store. *)
Definition qdrant_create_collection (name : string) (cfg : VectorParams) : M unit :=
  log (CreateCollection name cfg);;
  q ← get_store;
  match q !! name with
  | Some _ => raise StoreError
  | None => put_store (<[name := {| config := cfg; points := ∅ |}]> q)
  end.

(** qdrant_client.count(name).count *)
Definition qdrant_count (name : string) : M Z :=
  log (Count name);;
  q ← get_store;
  match q !! name with
  | Some c => ret (Z.of_nat (size (points c)))
  | None => raise StoreError
  end.

Definition upsert_point (m : gmap Z StoredPoint) (p : PointStruct) : gmap Z StoredPoint :=
  <[pt_id p := {| sp_vector := pt_vector p; sp_payload := pt_payload p |}]> m.

(** A collection takes the vectors that have its configured size. *)
Definition fits (c : Collection) (v : Vec) : bool :=
  (dim v =? vp_size (config c))%Z.

(** qdrant_client.upsert(name, points): each point is stored under its
    id, replacing the point that had this id, if any.  A vector of the
    wrong size is an error of the store, and then nothing is stored. *)
Definition qdrant_upsert (name : string) (pts : list PointStruct) : M unit :=
  log (Upsert name pts);;
  q ← get_store;
  match q !! name with
  | Some c =>
      if forallb (λ p, fits c (pt_vector p)) pts then
        put_store (<[name := {| config := config c;
                                points := foldl upsert_point (points c) pts |}]> q)
      else raise StoreError
  | None => raise StoreError
  end.

Definition id_le (a b : Z * StoredPoint) : Prop := (a.1 ≤ b.1)%Z.
#[local] Instance id_le_dec : RelDecision id_le :=
  λ a b, decide (a.1 ≤ b.1)%Z.

(** The points of a collection in ascending id order. *)
Definition points_by_id (c : Collection) : list (Z * StoredPoint) :=
  merge_sort id_le (map_to_list (points c)).

Definition to_record (kp : Z * StoredPoint) : Record_ :=
  {| rec_id := kp.1; rec_payload := sp_payload kp.2 |}.

(** The first [limit] points of a collection in id order. *)
Definition first_page (c : Collection) (limit : Z) : list (Z * StoredPoint) :=
  take (Z.to_nat limit) (points_by_id c).

(** qdrant_client.scroll(name, limit): the first page of the points in id
    order, and the id the next page starts at, if there is one. *)
Definition qdrant_scroll (name : string) (limit : Z)
  : M (list Record_ * option Z) :=
  log (Scroll name limit);;
  q ← get_store;
  match q !! name with
  | Some c =>
      ret (to_record <$> first_page c limit,
           fst <$> head (drop (Z.to_nat limit) (points_by_id c)))
  | None => raise StoreError
  end.

Definition to_scored (d : Distance) (qv : Vec) (kp : Z * StoredPoint) : ScoredPoint :=
  {| scp_id := kp.1;
     scp_score := similarity d qv (sp_vector kp.2);
     scp_payload := sp_payload kp.2 |}.

(** Under the cosine and dot metrics the score is a similarity and the
    best hit has the highest score; under the other two it is a distance
    and the best hit has the lowest. *)
Definition higher_is_better (d : Distance) : bool :=
  match d with
  | COSINE | DOT => true
  | EUCLID | MANHATTAN => false
  end.

(** Descending score order, and the order of the hits under a metric. *)
Definition score_ge (a b : ScoredPoint) : Prop :=
  score_le (scp_score b) (scp_score a).
Definition best_first (d : Distance) (a b : ScoredPoint) : Prop :=
  if higher_is_better d then score_ge a b else score_ge b a.
#[local] Instance best_first_dec d : RelDecision (best_first d) :=
  λ a b, match d with
         | COSINE | DOT => decide (score_le (scp_score b) (scp_score a))
         | EUCLID | MANHATTAN => decide (score_le (scp_score a) (scp_score b))
         end.

(** The [limit] points of a collection closest to [qv], best first. *)
Definition nearest (c : Collection) (qv : Vec) (limit : Z) : list ScoredPoint :=
  take (Z.to_nat limit)
    (merge_sort (best_first (vp_distance (config c)))
       (to_scored (vp_distance (config c)) qv <$> points_by_id c)).

(** qdrant_client.search(name, query_vector, limit): a query vector of
    the wrong size is an error of the store. *)
Definition qdrant_search (name : string) (qv : Vec) (limit : Z)
  : M (list ScoredPoint) :=
  log (Search name qv limit);;
  q ← get_store;
  match q !! name with
  | Some c => if fits c qv then ret (nearest c qv limit) else raise StoreError
  | None => raise StoreError
  end.

(** ** The functions of app.py *)

(** payload[key] *)
Definition payload_get (p : Payload) (key : string) : M string :=
  match p !! key with
  | Some v => ret v
  | None => raise KeyError
  end.

(** app.py, lines 51-63 *)
Definition assure_db_collection_exists : M unit :=
  ex ← qdrant_collection_exists QDRANT_COLLECTION_NAME;
  if negb ex then
    qdrant_create_collection QDRANT_COLLECTION_NAME
      {| vp_size := EMBEDDING_DIM; vp_distance := COSINE |}
  else
    ret tt.

(** The request [get_embedding] sends for a text. *)
Definition embedding_request (text : string) : EmbeddingRequest :=
  {| er_input := [text];
     er_model := EMBEDDING_MODEL;
     er_dimensions := EMBEDDING_DIM |}.

(** app.py, lines 65-72 *)
Definition get_embedding (text : string) : M Vec :=
  result ← openai_embeddings_create (embedding_request text);
  match result with
  | e :: _ => ret e
  | [] => raise EmbeddingError
  end.

(** app.py, lines 74-85 *)
Definition add_note_to_db (note_text : string) : M unit :=
  current_count ← qdrant_count QDRANT_COLLECTION_NAME;
  v ← get_embedding note_text;
  let point := {| pt_id := current_count + 1;
                  pt_vector := v;
                  pt_payload := {[ "text" := note_text ]} |} in
  qdrant_upsert QDRANT_COLLECTION_NAME [point].

(** Python truthiness of the [query] argument: [None] and the empty
    string are false. *)
Definition truthy (query : option string) : bool :=
  match query with
  | None => false
  | Some s => negb (bool_decide (s = ""))
  end.

(** app.py, lines 87-110 *)
Definition list_notes_from_db (query : option string)
  : M (list (SearchResult Score)) :=
  if negb (truthy query) then
    page ← qdrant_scroll QDRANT_COLLECTION_NAME 10;
    let notes := page.1 in
    for_append (λ note,
      t ← payload_get (rec_payload note) "text";
      ret {| text := t; score := None |}) notes
  else
    (* here [query] is a non-empty string *)
    qv ← get_embedding (default "" query);
    notes ← qdrant_search QDRANT_COLLECTION_NAME qv 10;
    for_append (λ note,
      t ← payload_get (scp_payload note) "text";
      ret {| text := t; score := Some (scp_score note) |}) notes.

(** ** Vocabulary of the properties *)

(** The vector [get_embedding] returns for a text, when it returns. *)
Definition embedding_of (text : string) : option Vec :=
  data ← embeddings_create (embedding_request text); head data.

(** The world after some more calls were logged. *)
Definition logged (cs : list Call) (w : World) : World :=
  {| qdrant := qdrant w; calls := calls w ++ cs |}.

(** The calls a computation makes when run in [w], and the world it
    leaves. *)
Definition after {A} (m : M A) (w : World) : World := (m w).2.
Definition calls_made {A} (m : M A) (w : World) : list Call :=
  drop (length (calls w)) (calls (after m w)).

(** The points handed to [upsert], the collections created, the
    embedding requests sent and the searches issued in a log. *)
Definition upserted (cs : list Call) : list PointStruct :=
  cs ≫= λ c, match c with Upsert _ pts => pts | _ => [] end.
Definition creations (cs : list Call) : list (string * VectorParams) :=
  cs ≫= λ c, match c with CreateCollection n cfg => [(n, cfg)] | _ => [] end.
Definition requests (cs : list Call) : list EmbeddingRequest :=
  cs ≫= λ c, match c with EmbeddingsCreate r => [r] | _ => [] end.
Definition searches (cs : list Call) : list (string * Vec * Z) :=
  cs ≫= λ c, match c with Search n qv k => [(n, qv, k)] | _ => [] end.

(** The point [add_note_to_db] builds. *)
Definition note_point (id : Z) (v : Vec) (note_text : string) : PointStruct :=
  {| pt_id := id; pt_vector := v; pt_payload := {[ "text" := note_text ]} |}.

(** Every point of the collection has a "text" entry in its payload. *)
Definition has_text (c : Collection) : Prop :=
  map_Forall (λ _ p, is_Some (sp_payload p !! "text")) (points c).

(** The ids of the collection are exactly 1 .. count: the shape of a
    collection that only [add_note_to_db] has written to. *)
Definition contiguous (c : Collection) : Prop :=
  ∀ k, is_Some (points c !! k) ↔ (1 ≤ k ≤ Z.of_nat (size (points c)))%Z.

(** How many points of the collection have an id below [k]. *)
Definition ids_below (k : Z) (c : Collection) : nat :=
  length (filter (λ kp, (kp.1 < k)%Z) (map_to_list (points c))).

(** The same computation [n] times in a row. *)
Fixpoint times (n : nat) (m : M unit) : M unit :=
  match n with
  | O => ret tt
  | S n' => m;; times n' m
  end.

(** The result built from a listed point, and from a scored point. *)
Definition listed_result (r : Record_) : option (SearchResult Score) :=
  (λ t, {| text := t; score := None |}) <$> rec_payload r !! "text".
Definition scored_result (s : ScoredPoint) : option (SearchResult Score) :=
  (λ t, {| text := t; score := Some (scp_score s) |}) <$> scp_payload s !! "text".

(** Scores of a result list in descending order. *)
Definition result_ge (a b : SearchResult Score) : Prop :=
  match score a, score b with
  | Some x, Some y => score_le y x
  | _, _ => False
  end.

End NoteRepository.

(** ** A deterministic stand-in for the services, to run the functions on
    concrete stores: a vector is one integer, the embedding of a text is
    its length (the endpoint rejects the empty text), and the similarity of
    two vectors is the negated distance between them. *)
Module Stub.

Definition embed (req : EmbeddingRequest) : option (list Z) :=
  match er_input req with
  | [t] => if bool_decide (t = "") then None else Some [Z.of_nat (String.length t)]
  | _ => None
  end.

(** An endpoint that is down. *)
Definition unavailable (req : EmbeddingRequest) : option (list Z) := None.

Definition sim (d : Distance) (q v : Z) : Z := - Z.abs (q - v).

(** Every vector of the stand-in counts as one of [EMBEDDING_DIM]
    components. *)
Definition dim (v : Z) : Z := EMBEDDING_DIM.

Definition add_note : string → @M Z unit := add_note_to_db dim embed.
Definition find_notes : option string → @M Z (list (SearchResult Z)) :=
  list_notes_from_db dim embed sim Z.le.

(** A store without collections, and the store after the bootstrap and
    one [add_note] per text. *)
Definition empty_world : @World Z := {| qdrant := ∅; calls := [] |}.
Definition notes_world (texts : list string) : @World Z :=
  foldl (λ w t, after (add_note t) w)
        (after assure_db_collection_exists empty_world) texts.

(** A collection with five points whose ids are 1, 2, 3, 4 and 6, as left
    by another client that removed point 5. *)
Definition gap_world : @World Z :=
  {| qdrant :=
       {[ QDRANT_COLLECTION_NAME :=
            {| config := {| vp_size := EMBEDDING_DIM; vp_distance := COSINE |};
               points :=
                 list_to_map
                   ((λ k : Z, (k, {| sp_vector := k;
                                     sp_payload := {[ "text" := "old" ]} |}))
                      <$> [1; 2; 3; 4; 6]) |} ]};
     calls := [] |}.

Definition fifteen : list string :=
  ["n01"; "n02"; "n03"; "n04"; "n05"; "n06"; "n07"; "n08"; "n09"; "n10";
   "n11"; "n12"; "n13"; "n14"; "n15"].

(** Stores reached by the application alone: the bootstrap only, then 5,
    10 and 15 notes, and three notes of different lengths. *)
Definition bootstrapped : @World Z := notes_world [].
Definition five_notes : @World Z := notes_world (take 5 fifteen).
Definition ten_notes : @World Z := notes_world (take 10 fifteen).
Definition fifteen_notes : @World Z := notes_world fifteen.
Definition three_notes : @World Z :=
  notes_world ["apple pie recipe"; "car engine repair"; "tea"].

(** A collection in which another client left a point without text. *)
Definition untitled_world : @World Z :=
  {| qdrant :=
       {[ QDRANT_COLLECTION_NAME :=
            {| config := {| vp_size := EMBEDDING_DIM; vp_distance := COSINE |};
               points :=
                 {[ 1 := {| sp_vector := 1; sp_payload := {[ "text" := "a" ]} |};
                    2 := {| sp_vector := 2; sp_payload := ∅ |} ]} |} ]};
     calls := [] |}.

(** A store that reports, under a distance metric, the distance itself,
    and a collection of notes that another client created under such a
    metric. *)
Definition reported (d : Distance) (q v : Z) : Z :=
  if higher_is_better d then - Z.abs (q - v) else Z.abs (q - v).
Definition euclid_world : @World Z :=
  {| qdrant :=
       {[ QDRANT_COLLECTION_NAME :=
            {| config := {| vp_size := EMBEDDING_DIM; vp_distance := EUCLID |};
               points :=
                 {[ 1 := {| sp_vector := 1; sp_payload := {[ "text" := "a" ]} |};
                    2 := {| sp_vector := 3; sp_payload := {[ "text" := "bbb" ]} |} ]} |} ]};
     calls := [] |}.

(** The notes collection of a world (an empty one if there is none). *)
Definition collection_of (w : @World Z) : @Collection Z :=
  default {| config := {| vp_size := 0; vp_distance := COSINE |}; points := ∅ |}
          (qdrant w !! QDRANT_COLLECTION_NAME).

End Stub.

(** ** Several notes in a row *)

Section Notebook.

Context {Vec : Type}.
Variable dim : Vec → Z.
Variable embeddings_create : EmbeddingRequest → option (list Vec).

(** One [add_note_to_db] per text, in order: what successive saves of the
    page amount to. *)
Fixpoint add_notes (texts : list string) : M unit :=
  match texts with
  | [] => ret tt
  | t :: texts' => add_note_to_db dim embeddings_create t;; add_notes texts'
  end.

(** The stored points of notes given with their vectors, under the ids
    [k], [k + 1], ... *)
Fixpoint numbered (k : Z) (notes : list (string * Vec))
  : list (Z * @StoredPoint Vec) :=
  match notes with
  | [] => []
  | (t, v) :: notes' =>
      (k, {| sp_vector := v; sp_payload := {[ "text" := t ]} |})
        :: numbered (k + 1) notes'
  end.

(** The result a listing shows for a text. *)
Definition listed {Score} (t : string) : SearchResult Score :=
  {| text := t; score := None |}.

End Notebook.

(** * The page script (app.py, lines 10-49 and 112-202)

    One run of the script, top to bottom.  Streamlit re-runs the script on
    every interaction; what a widget returns in a run is an input of that
    run, gathered in a [Frame] together with the content of the .env file.
    The elements the script displays, the files it writes and the
    transcription requests it sends are logged in the [Page], beside the
    session state and the world of the repository functions.  The
    credentials of the clients, failures of the file system and of the
    audio encoder, and the layout of the page (tabs) are not modelled. *)

Abbreviation bytes := (list byte).

(** A value of the session state or of the .env file. *)
Inductive Value := VNone | VStr (s : string) | VBytes (b : bytes).

(** Python truthiness. *)
Definition truthy_value (v : Value) : bool :=
  match v with
  | VNone => false
  | VStr s => negb (bool_decide (s = ""))
  | VBytes b => negb (bool_decide (b = []))
  end.

(** [v != s], for a string [s]. *)
Definition differs_from (v : Value) (s : string) : bool :=
  match v with
  | VStr s' => negb (bool_decide (s' = s))
  | _ => true
  end.

(** The keyword arguments of openai_client.audio.transcriptions.create,
    with the name and the content of the file. *)
Record TranscriptionRequest :=
  { tr_file_name : string; tr_file : bytes;
    tr_model : string; tr_response_format : string }.

(** Why a run ends before the last line: [st.stop()], [st.rerun()], or an
    exception nobody catches. *)
Inductive Interrupt :=
| StopScript
| RerunScript
| Uncaught (e : Exception)
| NameError (name : string)
| TypeError
| TranscriptionError.

Inductive Ended (A : Type) :=
| Completed (a : A)
| Interrupted (i : Interrupt).
Arguments Completed {A} a.
Arguments Interrupted {A} i.

(** What the script displays. *)
Inductive Element :=
| StInfo (body : string)
| StTitle (body : string)
| StAudio (data : Value) (format : string)
| StWrite (body : string)
| StToast (body icon : string)
| StDownloadButton (label : string) (data : Value) (file_name mime : string)
| StMarkdown (body : string).

(** The inputs of one run. *)
Record Frame :=
  { env : gmap string (option string);   (* dotenv_values(".env") *)
    api_key_input : string;              (* st.text_input("Klucz API") *)
    recording : option bytes;            (* the recording exported as mp3,
                                            when the recorder holds one *)
    recording_title : string;            (* "Podaj nazwę nagrania" *)
    upload : option bytes;               (* uploaded_file.read() *)
    upload_title : string;               (* "Podaj nazwę wgranego nagrania" *)
    save_voice_clicked : bool;           (* "Zapisz notatkę głosową" *)
    transcribe_clicked : bool;           (* "Transkrybuj audio" *)
    text_area : string;                  (* "Edytuj notatkę tekstową" *)
    save_text_clicked : bool;            (* "Zapisz notatkę tekstową" *)
    query_input : string;                (* "Wyszukaj notatkę" *)
    search_clicked : bool }.             (* "Szukaj" *)

Definition AUDIO_TRANSCRIBE_MODEL : string := "whisper-1".

Section Page.

Context {Vec Score : Type}.
Variable dim : Vec → Z.
Variable embeddings_create : EmbeddingRequest → option (list Vec).
Variable similarity : Distance → Vec → Vec → Score.
Variable score_le : relation Score.
Context `{!RelDecision score_le}.

(** The transcription endpoint ([None] when the call raises), the md5
    digest in hexadecimal, and what Python makes of a score: its truth
    value and its rendering in an f-string. *)
Variable transcriptions_create : TranscriptionRequest → option string.
Variable md5_hexdigest : bytes → string.
Variable score_truthy : Score → bool.
Variable score_str : Score → string.

(** [add_note_to_db] called with a note text that is not a string.  No
    widget of the page gives such a value; what the embedding endpoint and
    the store make of it is left open. *)
Variable add_note_to_db_any : Value → @M Vec unit.

Record Page :=
  { session_state : gmap string Value;
    qdrant_client_cached : bool;          (* st.cache_resource *)
    shown : list Element;
    files : gmap string bytes;
    transcriptions : list TranscriptionRequest;
    services : @World Vec }.

Definition Script (A : Type) : Type := Page → Ended A * Page.

Definition script_ret {A} (a : A) : Script A := λ p, (Completed a, p).
Definition script_bind {A B} (m : Script A) (k : A → Script B) : Script B :=
  λ p, match m p with
       | (Completed a, p') => k a p'
       | (Interrupted i, p') => (Interrupted i, p')
       end.
Definition interrupt {A} (i : Interrupt) : Script A := λ p, (Interrupted i, p).

#[global] Instance Script_ret : MRet Script := @script_ret.
#[global] Instance Script_bind : MBind Script := λ A B k m, script_bind m k.

(** st.session_state.get(key) *)
Definition session_get (key : string) : Script Value :=
  λ p, (Completed (default VNone (session_state p !! key)), p).

(** st.session_state[key] *)
Definition session_item (key : string) : Script Value :=
  λ p, match session_state p !! key with
       | Some v => (Completed v, p)
       | None => (Interrupted (Uncaught KeyError), p)
       end.

(** key in st.session_state *)
Definition session_has (key : string) : Script bool :=
  λ p, (Completed (bool_decide (is_Some (session_state p !! key))), p).

(** st.session_state[key] = v *)
Definition session_set (key : string) (v : Value) : Script unit :=
  λ p, (Completed tt,
        {| session_state := <[key := v]> (session_state p);
           qdrant_client_cached := qdrant_client_cached p;
           shown := shown p; files := files p;
           transcriptions := transcriptions p; services := services p |}).

(** A display call. *)
Definition show (e : Element) : Script unit :=
  λ p, (Completed tt,
        {| session_state := session_state p;
           qdrant_client_cached := qdrant_client_cached p;
           shown := shown p ++ [e]; files := files p;
           transcriptions := transcriptions p; services := services p |}).

(** A repository function run from the page: its exceptions end the
    run. *)
Definition lift {A} (m : M A) : Script A :=
  λ p, let '(o, w) := m (services p) in
       (match o with
        | Return a => Completed a
        | Raise e => Interrupted (Uncaught e)
        end,
        {| session_state := session_state p;
           qdrant_client_cached := qdrant_client_cached p;
           shown := shown p; files := files p;
           transcriptions := transcriptions p; services := w |}).

(** app.py, lines 44-49: the client is built on the first call, from two
    entries of the .env file, and kept.  A missing entry is a [KeyError];
    nothing is kept then. *)
Definition get_qdrant_client (f : Frame) : Script unit :=
  λ p, if qdrant_client_cached p then (Completed tt, p)
       else match env f !! "QDRANT_URL", env f !! "QDRANT_API_KEY" with
            | Some _, Some _ =>
                (Completed tt,
                 {| session_state := session_state p;
                    qdrant_client_cached := true;
                    shown := shown p; files := files p;
                    transcriptions := transcriptions p;
                    services := services p |})
            | _, _ => (Interrupted (Uncaught KeyError), p)
            end.

(** The repository functions as the page calls them: each starts with
    [get_qdrant_client()]. *)
Definition page_assure_db_collection_exists (f : Frame) : Script unit :=
  get_qdrant_client f;; lift assure_db_collection_exists.
Definition page_add_note_to_db (f : Frame) (note_text : string) : Script unit :=
  get_qdrant_client f;; lift (add_note_to_db dim embeddings_create note_text).
Definition page_list_notes_from_db (f : Frame) (query : option string)
  : Script (list (SearchResult Score)) :=
  get_qdrant_client f;;
  lift (list_notes_from_db dim embeddings_create similarity score_le query).

(** md5(v).hexdigest(): only bytes can be hashed. *)
Definition md5_of (v : Value) : Script string :=
  match v with
  | VBytes b => script_ret (md5_hexdigest b)
  | _ => interrupt TypeError
  end.

(** app.py, lines 17-18: the client is built with the key of the
    session.  ([get_embedding] builds it too; the key is in the session
    whenever the script gets past its first lines.) *)
Definition get_openai_client : Script unit :=
  session_item "openai_api_key";; script_ret tt.

(** BytesIO(v): [None] gives an empty buffer, a string is refused. *)
Definition bytes_io (v : Value) : Script bytes :=
  match v with
  | VBytes b => script_ret b
  | VNone => script_ret []
  | VStr _ => interrupt TypeError
  end.

(** openai_client.audio.transcriptions.create(...).text *)
Definition openai_transcriptions_create (req : TranscriptionRequest)
  : Script string :=
  λ p, let p' := {| session_state := session_state p;
                    qdrant_client_cached := qdrant_client_cached p;
                    shown := shown p; files := files p;
                    transcriptions := transcriptions p ++ [req];
                    services := services p |} in
       match transcriptions_create req with
       | Some transcript_text => (Completed transcript_text, p')
       | None => (Interrupted TranscriptionError, p')
       end.

(** app.py, lines 20-29 *)
Definition transcribe_audio (audio_bytes : Value) : Script string :=
  get_openai_client;;
  audio_file ← bytes_io audio_bytes;
  openai_transcriptions_create
    {| tr_file_name := "audio.mp3"; tr_file := audio_file;
       tr_model := AUDIO_TRANSCRIBE_MODEL;
       tr_response_format := "verbose_json" |}.

Definition put_file (name : string) (b : bytes) : Script unit :=
  λ p, (Completed tt,
        {| session_state := session_state p;
           qdrant_client_cached := qdrant_client_cached p;
           shown := shown p; files := <[name := b]> (files p);
           transcriptions := transcriptions p; services := services p |}).

(** open(name, "wb"): the file is created, or emptied. *)
Definition open_wb (name : string) : Script unit := put_file name [].

(** f.write(v): only bytes can be written. *)
Definition file_write (name : string) (v : Value) : Script unit :=
  match v with
  | VBytes b => put_file name b
  | _ => interrupt TypeError
  end.

(** The value of a variable that is only assigned on some paths. *)
Definition variable (name : string) (v : option string) : Script string :=
  match v with
  | Some s => script_ret s
  | None => interrupt (NameError name)
  end.

(** app.py, lines 31-42 *)
Definition api_key_gate (f : Frame) : Script unit :=
  key ← session_get "openai_api_key";
  (if negb (truthy_value key) then
     match env f !! "OPENAI_API_KEY" with
     | Some entry =>
         session_set "openai_api_key"
           (match entry with Some s => VStr s | None => VNone end)
     | None =>
         show (StInfo "Wprowadź swój klucz API, inaczej nie skorzystasz z aplikacji");;
         session_set "openai_api_key" (VStr (api_key_input f));;
         key' ← session_item "openai_api_key";
         if truthy_value key' then interrupt RerunScript else script_ret tt
     end
   else script_ret tt);;
  key ← session_get "openai_api_key";
  if negb (truthy_value key) then interrupt StopScript else script_ret tt.

(** if key not in st.session_state: st.session_state[key] = v *)
Definition session_setdefault (key : string) (v : Value) : Script unit :=
  present ← session_has key;
  if negb present then session_set key v else script_ret tt.

(** app.py, lines 113-120 *)
Definition init_session_state : Script unit :=
  session_setdefault "note_audio_bytes_md5" VNone;;
  session_setdefault "note_audio_bytes" VNone;;
  session_setdefault "note_text" (VStr "");;
  session_setdefault "note_audio_text" (VStr "").

(** app.py, lines 130-151: the recorder.  Returns [note_title], if
    assigned. *)
Definition recorder_block (f : Frame) : Script (option string) :=
  match recording f with
  | Some mp3 =>
      session_set "note_audio_bytes" (VBytes mp3);;
      audio ← session_item "note_audio_bytes";
      current_md5 ← md5_of audio;
      known_md5 ← session_item "note_audio_bytes_md5";
      (if differs_from known_md5 current_md5 then
         session_set "note_audio_text" (VStr "");;
         session_set "note_text" (VStr "");;
         session_set "note_audio_bytes_md5" (VStr current_md5)
       else script_ret tt);;
      audio ← session_item "note_audio_bytes";
      show (StAudio audio "audio/mp3");;
      show (StWrite "Nagranie zostało ukończone");;
      script_ret (Some (recording_title f))
  | None => script_ret None
  end.

(** app.py, lines 153-158: the uploader. *)
Definition uploader_block (f : Frame) (note_title : option string)
  : Script (option string) :=
  match upload f with
  | Some content =>
      session_set "note_audio_bytes" (VBytes content);;
      audio ← session_item "note_audio_bytes";
      show (StAudio audio "audio/mp3");;
      show (StWrite "Wgrano plik audio.");;
      script_ret (Some (upload_title f))
  | None => script_ret note_title
  end.

(** app.py, lines 160-175: saving the voice note. *)
Definition save_voice_block (f : Frame) (note_title : option string)
  : Script unit :=
  if save_voice_clicked f then
    title ← variable "note_title" note_title;
    open_wb (title ++ ".mp3");;
    audio ← session_item "note_audio_bytes";
    file_write (title ++ ".mp3") audio;;
    show (StToast "Notatka głowa zapisana" "🎉");;
    audio ← session_item "note_audio_bytes";
    title ← variable "note_title" note_title;
    show (StDownloadButton "Ściągnij notatkę" audio (title ++ ".mp3") "audio/mp3");;
    audio ← session_item "note_audio_bytes";
    current_md5 ← md5_of audio;
    known_md5 ← session_item "note_audio_bytes_md5";
    if differs_from known_md5 current_md5 then
      session_set "note_audio_text" (VStr "");;
      session_set "note_audio_bytes_md5" (VStr current_md5)
    else script_ret tt
  else script_ret tt.

(** app.py, lines 177-181: transcribing, and the text area. *)
Definition transcribe_block (f : Frame) : Script unit :=
  (if transcribe_clicked f then
     audio ← session_item "note_audio_bytes";
     transcript ← transcribe_audio audio;
     session_set "note_audio_text" (VStr transcript)
   else script_ret tt);;
  transcript ← session_item "note_audio_text";
  if truthy_value transcript then
    session_set "note_text" (VStr (text_area f))
  else script_ret tt.

(** app.py, lines 183-192: saving the text note. *)
Definition save_text_block (f : Frame) (note_title : option string)
  : Script unit :=
  note ← session_item "note_text";
  if truthy_value note && save_text_clicked f then
    note ← session_item "note_text";
    match note with
    | VStr note_text => page_add_note_to_db f note_text
    | _ => get_qdrant_client f;; lift (add_note_to_db_any note)
    end;;
    show (StToast "Notatka tekstowa zapisana" "🎉");;
    note ← session_item "note_text";
    title ← variable "note_title" note_title;
    show (StDownloadButton "Ściągnij notatkę tekstową" note (title ++ ".txt")
            "text/plain")
  else script_ret tt.

(** app.py, lines 129-192 *)
Definition add_tab (f : Frame) : Script unit :=
  note_title ← recorder_block f;
  note_title ← uploader_block f note_title;
  save_voice_block f note_title;;
  transcribe_block f;;
  save_text_block f note_title.

(** One result on the page (lines 199-202). *)
Definition show_result (note : SearchResult Score) : Script unit :=
  show (StMarkdown ("**Notatka:** " ++ text note));;
  match score note with
  | Some s =>
      if score_truthy s then show (StMarkdown ("*Dopasowanie:* " ++ score_str s))
      else script_ret tt
  | None => script_ret tt
  end.

Fixpoint for_each {A} (body : A → Script unit) (l : list A) : Script unit :=
  match l with
  | [] => script_ret tt
  | a :: l' => body a;; for_each body l'
  end.

(** app.py, lines 195-202 *)
Definition search_tab (f : Frame) : Script unit :=
  let query := query_input f in
  if search_clicked f then
    search_results ← page_list_notes_from_db f (Some query);
    for_each show_result search_results
  else script_ret tt.

(** The script (lines 31-42 and 112-202). *)
Definition app (f : Frame) : Script unit :=
  api_key_gate f;;
  init_session_state;;
  show (StTitle "Zoe LAB 😘");;
  page_assure_db_collection_exists f;;
  add_tab f;;
  search_tab f.

(** ** Vocabulary of the properties of the page *)

(** The values [init_session_state] gives to the entries that are
    missing. *)
Definition session_defaults : gmap string Value :=
  {[ "note_audio_bytes_md5" := VNone;
     "note_audio_bytes" := VNone;
     "note_text" := VStr "";
     "note_audio_text" := VStr "" ]}.

(** The page with another session state, screen or world. *)
Definition with_session (s : gmap string Value) (p : Page) : Page :=
  {| session_state := s; qdrant_client_cached := qdrant_client_cached p;
     shown := shown p; files := files p;
     transcriptions := transcriptions p; services := services p |}.
Definition with_shown (es : list Element) (p : Page) : Page :=
  {| session_state := session_state p;
     qdrant_client_cached := qdrant_client_cached p;
     shown := shown p ++ es; files := files p;
     transcriptions := transcriptions p; services := services p |}.
Definition with_services (w : World) (p : Page) : Page :=
  {| session_state := session_state p;
     qdrant_client_cached := qdrant_client_cached p;
     shown := shown p; files := files p;
     transcriptions := transcriptions p; services := w |}.

Definition with_files (fs : gmap string bytes) (p : Page) : Page :=
  {| session_state := session_state p;
     qdrant_client_cached := qdrant_client_cached p;
     shown := shown p; files := fs;
     transcriptions := transcriptions p; services := services p |}.
Definition with_transcriptions (rs : list TranscriptionRequest) (p : Page)
  : Page :=
  {| session_state := session_state p;
     qdrant_client_cached := qdrant_client_cached p;
     shown := shown p; files := files p;
     transcriptions := transcriptions p ++ rs; services := services p |}.

(** The request [transcribe_audio] sends for an audio. *)
Definition transcription_request (audio : bytes) : TranscriptionRequest :=
  {| tr_file_name := "audio.mp3"; tr_file := audio;
     tr_model := AUDIO_TRANSCRIBE_MODEL;
     tr_response_format := "verbose_json" |}.

(** The session entry under a key, [None] when it is missing. *)
Definition entry (key : string) (p : Page) : Value :=
  default VNone (session_state p !! key).

(** The audio a run works on: the uploaded file if there is one, else the
    recording in the recorder, else the audio of the session. *)
Definition current_audio (f : Frame) (stored : Value) : Value :=
  match upload f, recording f with
  | Some content, _ => VBytes content
  | None, Some mp3 => VBytes mp3
  | None, None => stored
  end.

(** The session as the recorder and the uploader leave it: the recording
    becomes the audio and, when its digest is not the one of the session,
    empties the drafts; then the uploaded file becomes the audio. *)
Definition heard (f : Frame) (s : gmap string Value) : gmap string Value :=
  let s1 :=
    match recording f with
    | Some mp3 =>
        let s' := <["note_audio_bytes" := VBytes mp3]> s in
        if differs_from (default VNone (s !! "note_audio_bytes_md5"))
             (md5_hexdigest mp3)
        then <["note_audio_bytes_md5" := VStr (md5_hexdigest mp3)]>
               (<["note_text" := VStr ""]> (<["note_audio_text" := VStr ""]> s'))
        else s'
    | None => s
    end in
  match upload f with
  | Some content => <["note_audio_bytes" := VBytes content]> s1
  | None => s1
  end.

(** What the recorder and the uploader show. *)
Definition heard_shown (f : Frame) : list Element :=
  match recording f with
  | Some mp3 => [StAudio (VBytes mp3) "audio/mp3";
                 StWrite "Nagranie zostało ukończone"]
  | None => []
  end ++
  match upload f with
  | Some content => [StAudio (VBytes content) "audio/mp3";
                     StWrite "Wgrano plik audio."]
  | None => []
  end.

(** A computation that leaves a component of the page alone, however it
    ends. *)
Definition keeps {A B} (part : Page → B) (m : Script A) : Prop :=
  ∀ p, part (m p).2 = part p.

(** The lines the page shows for one result. *)
Definition result_lines (note : SearchResult Score) : list Element :=
  StMarkdown ("**Notatka:** " ++ text note) ::
  match score note with
  | Some s =>
      if score_truthy s then [StMarkdown ("*Dopasowanie:* " ++ score_str s)]
      else []
  | None => []
  end.

(** What is left of the script after its first lines. *)
Definition app_body (f : Frame) : Script unit :=
  init_session_state;;
  show (StTitle "Zoe LAB 😘");;
  page_assure_db_collection_exists f;;
  add_tab f;;
  search_tab f.

End Page.

(** ** Stand-ins for the page: the transcript of an audio is its bytes
    read as text (the endpoint rejects an empty file), the digest of an
    audio is the same text, a score is false when it is zero. *)
Module StubPage.

Definition transcribe (req : TranscriptionRequest) : option string :=
  if bool_decide (tr_file req = []) then None
  else Some (String.string_of_list_byte (tr_file req)).

Definition md5 (b : bytes) : string := String.string_of_list_byte b.

Definition nonzero (z : Z) : bool := negb (z =? 0)%Z.

(** The stand-in for the store refuses a note text that is not a
    string. *)
Definition refuse (v : Value) : @M Z unit := λ w, (Raise StoreError, w).

Definition add_tab : Frame → @Script Z unit :=
  add_tab Stub.dim Stub.embed transcribe md5 refuse.
Definition search_tab : Frame → @Script Z unit :=
  search_tab Stub.dim Stub.embed Stub.sim Z.le nonzero pretty.
Definition app : Frame → @Script Z unit :=
  app Stub.dim Stub.embed Stub.sim Z.le transcribe md5 nonzero pretty refuse.

(** A .env file with the entries of the store, and one with the key of
    the embedding service as well. *)
Definition store_env : gmap string (option string) :=
  {[ "QDRANT_URL" := Some "https://store"; "QDRANT_API_KEY" := Some "secret" ]}.
Definition full_env : gmap string (option string) :=
  <["OPENAI_API_KEY" := Some "sk-env"]> store_env.

(** A run in which the user does nothing. *)
Definition idle (e : gmap string (option string)) : Frame :=
  {| env := e; api_key_input := "";
     recording := None; recording_title := "Bez nazwy";
     upload := None; upload_title := "Bez nazwy";
     save_voice_clicked := false; transcribe_clicked := false;
     text_area := ""; save_text_clicked := false;
     query_input := ""; search_clicked := false |}.

Definition hello : bytes := String.list_byte_of_string "hello".
Definition other : bytes := String.list_byte_of_string "other".

(** The page of a new session over a world. *)
Definition new_page (w : @World Z) : @Page Z :=
  {| session_state := ∅; qdrant_client_cached := false; shown := [];
     files := ∅; transcriptions := []; services := w |}.

(** The next run starts from the state the last one left, with an empty
    screen. *)
Definition next_run (p : @Page Z) : @Page Z :=
  {| session_state := session_state p;
     qdrant_client_cached := qdrant_client_cached p; shown := [];
     files := files p; transcriptions := transcriptions p;
     services := services p |}.

(** A session in which "hello" was recorded, transcribed and edited to
    "hello world". *)
Definition drafted (w : @World Z) : @Page Z :=
  {| session_state :=
       {[ "openai_api_key" := VStr "sk-env";
          "note_audio_bytes_md5" := VStr (md5 hello);
          "note_audio_bytes" := VBytes hello;
          "note_text" := VStr "hello world";
          "note_audio_text" := VStr "hello" ]};
     qdrant_client_cached := true; shown := [];
     files := ∅; transcriptions := []; services := w |}.

(** A run in which the user types a key. *)
Definition typing (k : string) : Frame :=
  {| env := store_env; api_key_input := k;
     recording := None; recording_title := "Bez nazwy";
     upload := None; upload_title := "Bez nazwy";
     save_voice_clicked := false; transcribe_clicked := false;
     text_area := ""; save_text_clicked := false;
     query_input := ""; search_clicked := false |}.

(** A run of the tab that adds notes: the recorder and the uploader, the
    three buttons and the text area. *)
Definition adding (rec up : option bytes) (voice trans save : bool)
    (area : string) : Frame :=
  {| env := full_env; api_key_input := "";
     recording := rec; recording_title := "memo";
     upload := up; upload_title := "file";
     save_voice_clicked := voice; transcribe_clicked := trans;
     text_area := area; save_text_clicked := save;
     query_input := ""; search_clicked := false |}.

(** A run in which the user searches. *)
Definition searching (query : string) : Frame :=
  {| env := full_env; api_key_input := "";
     recording := None; recording_title := "Bez nazwy";
     upload := None; upload_title := "Bez nazwy";
     save_voice_clicked := false; transcribe_clicked := false;
     text_area := ""; save_text_clicked := false;
     query_input := query; search_clicked := true |}.

End StubPage.

(** * Properties *)

Section Properties.

Context {Vec Score : Type}.
Variable dim : Vec → Z.
Variable embeddings_create : EmbeddingRequest → option (list Vec).
Variable similarity : Distance → Vec → Vec → Score.
Variable score_le : relation Score.
Context `{!RelDecision score_le}.

Implicit Types (w : @World Vec) (c : @Collection Vec) (v : Vec).
Implicit Types (p : @StoredPoint Vec) (name t : string).

Local Abbreviation add_note := (add_note_to_db dim embeddings_create).
Local Abbreviation find_notes :=
  (list_notes_from_db dim embeddings_create similarity score_le).
Local Abbreviation ensure_collection_exists :=
  (assure_db_collection_exists (Vec:=Vec)).
Local Abbreviation NAME := QDRANT_COLLECTION_NAME.

(** ** What each service call does to the world *)

Ltac monad_unfold :=
  cbv [mbind mret M_bind M_ret bind ret raise log get_store put_store]; simpl.

Lemma logged_logged cs1 cs2 w :
  logged cs2 (logged cs1 w) = logged (cs1 ++ cs2) w.
Proof. unfold logged; simpl. by rewrite <- (assoc_L (++)). Qed.

Lemma qdrant_count_run name w :
  qdrant_count name w =
    (match qdrant w !! name with
     | Some c => Return (Z.of_nat (size (points c)))
     | None => Raise StoreError
     end, logged [Count name] w).
Proof. unfold qdrant_count. monad_unfold. by destruct (qdrant w !! name). Qed.

Lemma get_embedding_run t w :
  get_embedding embeddings_create t w =
    (match embedding_of embeddings_create t with
     | Some v => Return v
     | None => Raise EmbeddingError
     end, logged [EmbeddingsCreate (embedding_request t)] w).
Proof.
  unfold get_embedding, openai_embeddings_create, embedding_of.
  monad_unfold.
  destruct (embeddings_create (embedding_request t)) as [[|v data]|]; done.
Qed.

Lemma qdrant_upsert_run name pts w :
  qdrant_upsert dim name pts w =
    match qdrant w !! name with
    | Some c =>
        if forallb (λ pt, fits dim c (pt_vector pt)) pts then
          (Return tt,
           {| qdrant := <[name := {| config := config c;
                                     points := foldl upsert_point (points c) pts |}]>
                          (qdrant w);
              calls := calls w ++ [Upsert name pts] |})
        else (Raise StoreError, logged [Upsert name pts] w)
    | None => (Raise StoreError, logged [Upsert name pts] w)
    end.
Proof.
  unfold qdrant_upsert. monad_unfold.
  destruct (qdrant w !! name) as [c|]; [|done].
  by destruct (forallb _ pts).
Qed.

(** [add_note_to_db], case by case: the store has no collection, the
    embedding is not available, the store refuses the vector, or the point
    is stored. *)
Lemma add_note_to_db_run t w :
  add_note t w =
    match qdrant w !! NAME with
    | None => (Raise StoreError, logged [Count NAME] w)
    | Some c =>
        match embedding_of embeddings_create t with
        | None =>
            (Raise EmbeddingError,
             logged [Count NAME; EmbeddingsCreate (embedding_request t)] w)
        | Some v =>
            let pt := note_point (Z.of_nat (size (points c)) + 1) v t in
            let cs := [Count NAME; EmbeddingsCreate (embedding_request t);
                       Upsert NAME [pt]] in
            if fits dim c v then
              (Return tt,
               {| qdrant := <[NAME := {| config := config c;
                                         points := upsert_point (points c) pt |}]>
                              (qdrant w);
                  calls := calls w ++ cs |})
            else (Raise StoreError, logged cs w)
        end
    end.
Proof.
  change (add_note t w) with
    (bind (qdrant_count NAME)
       (λ n, bind (get_embedding embeddings_create t)
               (λ v, qdrant_upsert dim NAME [note_point (n + 1) v t])) w).
  unfold bind at 1. rewrite qdrant_count_run.
  destruct (qdrant w !! NAME) as [c|] eqn:Hc; [|done].
  unfold bind. rewrite get_embedding_run.
  destruct (embedding_of embeddings_create t) as [v|]; [|by rewrite logged_logged].
  rewrite qdrant_upsert_run. simpl. rewrite Hc. simpl.
  rewrite andb_true_r.
  destruct (fits dim c v); unfold logged; simpl;
    by rewrite <- !(assoc_L (++)).
Qed.

Lemma truthy_Some s : truthy (Some s) = true → s ≠ "".
Proof.
  unfold truthy. intros H ->. by rewrite bool_decide_eq_true_2 in H.
Qed.

(** A loop that only reads payloads leaves the world alone and fails on
    the first payload without the key. *)
Lemma for_append_payload {A B} (P : A → Payload) (F : A → string → B)
    (l : list A) w :
  for_append (λ note, t ← payload_get (P note) "text"; ret (F note t)) l w =
    (match mapM (λ note, F note <$> P note !! "text") l with
     | Some r => Return r
     | None => Raise KeyError
     end, w).
Proof.
  revert w. induction l as [|a l IH]; intros w; [done|].
  simpl. unfold payload_get. monad_unfold.
  destruct (P a !! "text") as [t|]; simpl; [|done].
  change (for_append ?f l w) with (for_append f l w) in *.
  rewrite IH. by destruct (mapM _ l).
Qed.

(** [list_notes_from_db] without a query, case by case. *)
Lemma list_notes_listing_run query w :
  truthy query = false →
  find_notes query w =
    (match qdrant w !! NAME with
     | None => Raise StoreError
     | Some c =>
         match mapM listed_result (to_record <$> first_page c 10) with
         | Some r => Return r
         | None => Raise KeyError
         end
     end, logged [Scroll NAME 10] w).
Proof.
  intros Hq. unfold list_notes_from_db. rewrite Hq. simpl.
  unfold qdrant_scroll. monad_unfold.
  destruct (qdrant w !! NAME) as [c|]; [|done]. simpl.
  apply (for_append_payload rec_payload (λ _ t, {| text := t; score := None |})).
Qed.

(** [list_notes_from_db] with a query, case by case. *)
Lemma list_notes_search_run s w :
  s ≠ "" →
  find_notes (Some s) w =
    match embedding_of embeddings_create s with
    | None =>
        (Raise EmbeddingError, logged [EmbeddingsCreate (embedding_request s)] w)
    | Some qv =>
        (match qdrant w !! NAME with
         | None => Raise StoreError
         | Some c =>
             if fits dim c qv then
               match mapM scored_result (nearest similarity score_le c qv 10) with
               | Some r => Return r
               | None => Raise KeyError
               end
             else Raise StoreError
         end,
         logged [EmbeddingsCreate (embedding_request s); Search NAME qv 10] w)
    end.
Proof.
  intros Hs. unfold list_notes_from_db, truthy.
  rewrite bool_decide_eq_false_2 by done. simpl.
  change (mbind ?k ?m) with (bind m k). unfold bind at 1.
  rewrite get_embedding_run.
  destruct (embedding_of embeddings_create s) as [qv|]; [|done].
  unfold qdrant_search. monad_unfold.
  rewrite <- (assoc_L (++)). simpl.
  destruct (qdrant w !! NAME) as [c|]; [|done]. simpl.
  destruct (fits dim c qv); [|done].
  apply (for_append_payload scp_payload
           (λ note t, {| text := t; score := Some (scp_score note) |})).
Qed.

Lemma assure_db_collection_exists_run w :
  ensure_collection_exists w =
    match qdrant w !! NAME with
    | Some _ => (Return tt, logged [CollectionExists NAME] w)
    | None =>
        let cfg := {| vp_size := EMBEDDING_DIM; vp_distance := COSINE |} in
        (Return tt,
         {| qdrant := <[NAME := {| config := cfg; points := ∅ |}]> (qdrant w);
            calls := calls w ++ [CollectionExists NAME;
                                 CreateCollection NAME cfg] |})
    end.
Proof.
  unfold assure_db_collection_exists, qdrant_collection_exists,
    qdrant_create_collection.
  monad_unfold.
  destruct (qdrant w !! NAME) as [c|] eqn:Hc.
  - by rewrite bool_decide_eq_true_2 by eauto.
  - rewrite bool_decide_eq_false_2 by (by intros [? ?]). simpl.
    rewrite Hc. by rewrite <- (assoc_L (++)).
Qed.

(** ** Reading the log *)

Lemma calls_made_eq {A} (m : M A) w o w' cs :
  m w = (o, w') → calls w' = calls w ++ cs → calls_made m w = cs.
Proof.
  intros Hm Hcs. unfold calls_made, after. rewrite Hm. simpl.
  rewrite Hcs. by rewrite drop_app_length.
Qed.

Lemma creations_app (cs1 cs2 : list (@Call Vec)) :
  creations (cs1 ++ cs2) = creations cs1 ++ creations cs2.
Proof. apply bind_app. Qed.

Lemma creations_replicate_exists n name :
  creations (replicate n (CollectionExists (Vec:=Vec) name)) = [].
Proof. induction n as [|n IH]; [done|]. by simpl. Qed.

(** Once the collection is there, repeated bootstraps only ask whether it
    exists. *)
Lemma times_assure_present n w :
  is_Some (qdrant w !! NAME) →
  times n ensure_collection_exists w =
    (Return tt, logged (replicate n (CollectionExists NAME)) w).
Proof.
  revert w. induction n as [|n IH]; intros w Hc.
  - unfold logged. simpl. rewrite (right_id_L [] (++)). by destruct w.
  - simpl. change (mbind ?k ?m) with (bind m k). unfold bind.
    rewrite assure_db_collection_exists_run.
    destruct Hc as [c Hc]. rewrite Hc.
    rewrite IH by (simpl; eauto). by rewrite logged_logged.
Qed.

(** ** What the store returns *)

Lemma elem_of_points_by_id c k p :
  (k, p) ∈ points_by_id c ↔ points c !! k = Some p.
Proof.
  unfold points_by_id. rewrite merge_sort_Permutation.
  apply elem_of_map_to_list.
Qed.

Lemma length_first_page c limit :
  (length (first_page c limit) ≤ Z.to_nat limit)%nat.
Proof. unfold first_page. rewrite length_take. lia. Qed.

Lemma length_nearest c qv limit :
  (length (nearest similarity score_le c qv limit) ≤ Z.to_nat limit)%nat.
Proof. unfold nearest. rewrite length_take. lia. Qed.

Lemma elem_of_first_page c limit kp :
  kp ∈ first_page c limit → points c !! kp.1 = Some kp.2.
Proof.
  unfold first_page. intros Hin%(subseteq_take _ _).
  destruct kp as [k p]. by apply elem_of_points_by_id.
Qed.

(** Every hit of a search is a stored point with its similarity to the
    query vector as score. *)
Lemma elem_of_nearest c qv limit hit :
  hit ∈ nearest similarity score_le c qv limit →
  ∃ k p, points c !! k = Some p ∧
         hit = to_scored similarity (vp_distance (config c)) qv (k, p).
Proof.
  unfold nearest. intros Hin%(subseteq_take _ _).
  rewrite merge_sort_Permutation in Hin.
  apply list_elem_of_fmap in Hin as ([k p] & -> & Hin).
  exists k, p. split; [|done]. by apply elem_of_points_by_id.
Qed.

(** The hits of a search come best first; under a similarity metric that
    is by descending score. *)
Lemma nearest_sorted `{!Total score_le, !Transitive score_le} c qv limit :
  StronglySorted (best_first score_le (vp_distance (config c)))
    (nearest similarity score_le c qv limit).
Proof.
  assert (∀ d, Total (best_first (Score:=Score) score_le d)) as Htot.
  { intros d a b. unfold best_first, score_ge.
    destruct (higher_is_better d);
      destruct (total score_le (scp_score a) (scp_score b)); auto. }
  assert (∀ d, Transitive (best_first (Score:=Score) score_le d)) as Htrans.
  { intros d a b e. unfold best_first, score_ge.
    destruct (higher_is_better d); intros Hab Hbe; by etrans. }
  unfold nearest.
  eapply StronglySorted_app_1_l. rewrite take_drop.
  apply (StronglySorted_merge_sort _).
Qed.

Lemma nearest_descending `{!Total score_le, !Transitive score_le} c qv limit :
  higher_is_better (vp_distance (config c)) = true →
  StronglySorted (score_ge score_le) (nearest similarity score_le c qv limit).
Proof.
  intros Hd. pose proof (nearest_sorted c qv limit) as Hs.
  unfold best_first in Hs. by rewrite Hd in Hs.
Qed.

(** Listing and searching return when every payload has its text. *)
Lemma listed_page_returns c limit :
  has_text c →
  is_Some (mapM (listed_result (Score:=Score)) (to_record <$> first_page c limit)).
Proof.
  intros Hc. apply mapM_is_Some, Forall_fmap, Forall_forall.
  intros kp Hin%elem_of_first_page.
  destruct (Hc _ _ Hin) as [t Ht].
  unfold listed_result, to_record. simpl. rewrite Ht. by eexists.
Qed.

Lemma nearest_returns c qv limit :
  has_text c →
  is_Some (mapM scored_result (nearest similarity score_le c qv limit)).
Proof.
  intros Hc. apply mapM_is_Some, Forall_forall.
  intros hit (k & p & Hp & ->)%elem_of_nearest.
  destruct (Hc _ _ Hp) as [t Ht].
  unfold scored_result, to_scored. simpl. rewrite Ht. by eexists.
Qed.

(** An order on the inputs of a position-wise relation carries over to
    the outputs. *)
Lemma StronglySorted_Forall2 {A B} (R1 : relation A) (R2 : relation B)
    (P : A → B → Prop) l k :
  (∀ x x' y y', P x y → P x' y' → R1 x x' → R2 y y') →
  Forall2 P l k → StronglySorted R1 l → StronglySorted R2 k.
Proof.
  intros HR HF. induction HF as [|x y l k Hxy HF IH]; intros Hs.
  - constructor.
  - apply StronglySorted_cons in Hs as [Hhd Htl].
    constructor; [by apply IH|].
    eapply Forall2_Forall_r; [exact HF|].
    eapply Forall_impl; [exact Hhd|]. intros x' Hx' y' Hxy'. eauto.
Qed.

(** ** Position of a point in the id order *)

Lemma length_filter_Forall {A} (P : A → Prop) `{!∀ x, Decision (P x)}
    (l : list A) :
  Forall P l → length (filter P l) = length l.
Proof.
  induction 1 as [|x l Hx _ IH]; [done|].
  rewrite filter_cons_True by done. simpl. by rewrite IH.
Qed.

Lemma points_by_id_sorted c :
  StronglySorted (id_le (Vec:=Vec)) (points_by_id c).
Proof.
  assert (Total (id_le (Vec:=Vec))) by (intros a b; unfold id_le; lia).
  assert (Transitive (id_le (Vec:=Vec)))
    by (intros a b d; unfold id_le; lia).
  apply (StronglySorted_merge_sort _).
Qed.

Lemma points_by_id_NoDup c : NoDup (points_by_id c).*1.
Proof.
  unfold points_by_id. rewrite merge_sort_Permutation.
  apply NoDup_fst_map_to_list.
Qed.

Lemma ids_below_points_by_id k c :
  length (filter (λ kp, (kp.1 < k)%Z) (points_by_id c)) = ids_below k c.
Proof. unfold ids_below, points_by_id. by rewrite merge_sort_Permutation. Qed.

(** A point is on the first page when fewer than [limit] points have a
    smaller id. *)
Lemma elem_of_first_page_below c limit k p :
  points c !! k = Some p →
  (ids_below k c < Z.to_nat limit)%nat →
  (k, p) ∈ first_page c limit.
Proof.
  intros Hp Hbelow. apply elem_of_points_by_id in Hp.
  rewrite <- ids_below_points_by_id in Hbelow.
  pose proof (points_by_id_sorted c) as Hsorted.
  pose proof (points_by_id_NoDup c) as Hnodup.
  unfold first_page.
  destruct (list_elem_of_split _ _ Hp) as (l1 & l2 & Hl).
  rewrite Hl in Hbelow, Hsorted, Hnodup |- *.
  assert (Forall (λ kp, (kp.1 < k)%Z) l1) as Hl1.
  { apply Forall_forall. intros [k' p'] Hin. simpl.
    assert (k' ≤ k)%Z as Hle.
    { apply (StronglySorted_app_1_elem_of _ _ _ (k', p') (k, p) Hsorted);
        [done|by left]. }
    assert (k' ≠ k); [|lia]. intros ->.
    rewrite fmap_app in Hnodup. apply NoDup_app in Hnodup as (_ & Hdisj & _).
    apply (Hdisj k).
    - apply list_elem_of_fmap. by exists (k, p').
    - simpl. by left. }
  rewrite filter_app, length_app, (length_filter_Forall _ _ Hl1) in Hbelow.
  apply elem_of_take. exists (length l1). split; [|lia].
  by apply list_lookup_middle.
Qed.

(** Upserting under the id [k] does not change how many ids are below
    [k]. *)
Lemma ids_below_delete k c c' :
  points c' = delete k (points c) → ids_below k c' = ids_below k c.
Proof.
  intros Hc'. unfold ids_below. rewrite Hc'.
  destruct (points c !! k) as [old|] eqn:Hk.
  - rewrite <- (insert_id (points c) k old Hk) at 2.
    rewrite <- insert_delete_eq.
    rewrite map_to_list_insert by apply lookup_delete_eq.
    rewrite filter_cons_False by (simpl; lia). done.
  - by rewrite delete_id.
Qed.

Lemma ids_below_upsert k x c c' :
  points c' = <[k := x]> (points c) → ids_below k c' = ids_below k c.
Proof.
  intros Hc'.
  rewrite <- (ids_below_delete k c {| config := config c;
                                      points := delete k (points c) |} eq_refl).
  unfold ids_below. rewrite Hc'. cbn [points].
  rewrite <- insert_delete_eq.
  rewrite map_to_list_insert by apply lookup_delete_eq.
  by rewrite filter_cons_False by (simpl; lia).
Qed.

Lemma ids_below_le_size k c : (ids_below k c ≤ size (points c))%nat.
Proof.
  unfold ids_below. etrans; [apply length_filter|].
  by rewrite length_map_to_list.
Qed.

(** ** Collections written by the application alone

    The bootstrap creates a collection whose payloads all have a text
    and whose ids are 1 .. count, and [add_note_to_db] keeps it so: in
    such a collection the id [count + 1] is always free. *)

Lemma contiguous_fresh c :
  contiguous c → points c !! (Z.of_nat (size (points c)) + 1) = None.
Proof.
  intros Hc. destruct (points c !! _) as [p|] eqn:Hp; [|done].
  assert (is_Some (points c !! (Z.of_nat (size (points c)) + 1))) as Hs
    by eauto.
  apply Hc in Hs. lia.
Qed.

Lemma bootstrap_invariants w :
  qdrant w !! NAME = None →
  ∃ c, qdrant (after ensure_collection_exists w) !! NAME = Some c ∧
       has_text c ∧ contiguous c ∧ points c = ∅.
Proof.
  intros Hw. unfold after.
  rewrite assure_db_collection_exists_run, Hw. cbn [snd qdrant].
  eexists. split; [apply lookup_insert_eq|]. cbn [points].
  split; [apply map_Forall_empty|]. split; [|done].
  intros k. cbn [points]. rewrite lookup_empty, map_size_empty.
  split; [by intros [? ?]|lia].
Qed.

Lemma add_note_invariants w c t w1 :
  qdrant w !! NAME = Some c →
  has_text c → contiguous c →
  add_note t w = (Return tt, w1) →
  ∃ c1, qdrant w1 !! NAME = Some c1 ∧
        has_text c1 ∧ contiguous c1 ∧
        size (points c1) = S (size (points c)).
Proof.
  intros Hc Htext Hcont Hadd.
  pose proof (contiguous_fresh c Hcont) as Hfresh.
  rewrite add_note_to_db_run, Hc in Hadd.
  destruct (embedding_of embeddings_create t) as [v|]; [|done].
  cbv zeta in Hadd. destruct (fits dim c v); [|done]. injection Hadd as <-.
  cbn [qdrant].
  eexists. split; [apply lookup_insert_eq|]. cbn [points].
  unfold upsert_point, note_point. cbn [pt_id pt_vector pt_payload].
  assert (size (<[Z.of_nat (size (points c)) + 1 :=
                    {| sp_vector := v; sp_payload := {[ "text" := t ]} |}]>
                  (points c)) = S (size (points c))) as Hsz
    by (by apply map_size_insert_None).
  split; [|split; [|exact Hsz]].
  - apply map_Forall_insert_2; [|done]. simpl.
    rewrite lookup_singleton_eq. by eexists.
  - intros k. cbn [points]. rewrite Hsz, lookup_insert_is_Some.
    specialize (Hcont k). split.
    + intros [<- | [_ Hk%Hcont]]; lia.
    + intros Hk.
      destruct (decide (Z.of_nat (size (points c)) + 1 = k)) as [|Hne];
        [by left|].
      right. split; [done|]. apply Hcont. lia.
Qed.

(** ** Adding a note *)

(** C1 (as amended).  In a collection with [n] points, [add_note t1]
    hands exactly one point to [upsert], and its id is [n + 1].  When that
    call succeeded and no point had the id [n + 1] before, a following
    [add_note t2] assigns [n + 2]: from a collection with count 5 and no
    point 6, the ids are 6 and then 7. *)
Theorem add_note_id_assignment w c t1 t2 v1 v2 :
  qdrant w !! NAME = Some c →
  embedding_of embeddings_create t1 = Some v1 →
  embedding_of embeddings_create t2 = Some v2 →
  let n := Z.of_nat (size (points c)) in
  upserted (calls_made (add_note t1) w) = [note_point (n + 1) v1 t1] ∧
  ((add_note t1 w).1 = Return tt →
   points c !! (n + 1) = None →
   upserted (calls_made (add_note t2) (after (add_note t1) w))
     = [note_point (n + 2) v2 t2]).
Proof.
  intros Hc H1 H2 n.
  pose proof (add_note_to_db_run t1 w) as R1.
  rewrite Hc, H1 in R1. cbv zeta in R1. fold n in R1.
  split.
  - destruct (fits dim c v1); by rewrite (calls_made_eq _ _ _ _ _ R1 eq_refl).
  - intros Hok Hfresh. rewrite R1 in Hok. unfold after at 1. rewrite R1.
    destruct (fits dim c v1); [clear Hok|done]. cbn [snd].
    match goal with |- context [calls_made _ ?w1] => set (w1' := w1) end.
    pose proof (add_note_to_db_run t2 w1') as R2.
    assert (qdrant w1' !! NAME =
              Some {| config := config c;
                      points := upsert_point (points c) (note_point (n + 1) v1 t1) |})
      as Hc1 by (subst w1'; simpl; apply lookup_insert_eq).
    assert (size (upsert_point (points c) (note_point (n + 1) v1 t1))
              = S (size (points c))) as Hsz
      by (by apply map_size_insert_None).
    rewrite Hc1, H2 in R2. cbv zeta in R2. cbn [points] in R2.
    rewrite Hsz in R2.
    replace (Z.of_nat (S (size (points c))) + 1) with (n + 2) in R2
      by (subst n; lia).
    destruct (fits dim _ v2); by rewrite (calls_made_eq _ _ _ _ _ R2 eq_refl).
Qed.

(** C10.  When the collection already holds a point under the id
    [count + 1], [add_note] succeeds as it does for a free id (the
    embedding being available and of the collection's size): the point
    under that id is now the new note, the old one is gone, the count is
    unchanged and the other points are untouched. *)
Theorem add_note_replaces_existing w c t v old :
  qdrant w !! NAME = Some c →
  embedding_of embeddings_create t = Some v →
  dim v = vp_size (config c) →
  points c !! (Z.of_nat (size (points c)) + 1) = Some old →
  ∃ w' c',
    add_note t w = (Return tt, w') ∧
    qdrant w' !! NAME = Some c' ∧
    points c' !! (Z.of_nat (size (points c)) + 1)
      = Some {| sp_vector := v; sp_payload := {[ "text" := t ]} |} ∧
    size (points c') = size (points c) ∧
    ∀ j, j ≠ Z.of_nat (size (points c)) + 1 → points c' !! j = points c !! j.
Proof.
  intros Hc Hv Hdim Hold.
  pose proof (add_note_to_db_run t w) as R. rewrite Hc, Hv in R. cbv zeta in R.
  unfold fits in R. rewrite (proj2 (Z.eqb_eq _ _) Hdim) in R.
  eexists _, _. split; [exact R|]. cbn [qdrant].
  split; [apply lookup_insert_eq|]. cbn [points].
  unfold upsert_point, note_point. cbn [pt_id pt_vector pt_payload].
  split; [apply lookup_insert_eq|]. split.
  - apply map_size_insert_Some. eauto.
  - intros j Hj. by apply lookup_insert_ne.
Qed.

(** C2.  When the embedding endpoint raises for a text, [add_note] on an
    existing collection fails with [EmbeddingError] after the count and
    the embedding request only, so nothing was upserted and the store is
    as it was; [find_notes] with a non-empty query fails with
    [EmbeddingError] after the embedding request only, so no search was
    issued. *)
Theorem embedding_failure_propagates w :
  (∀ c t,
     qdrant w !! NAME = Some c →
     embeddings_create (embedding_request t) = None →
     (add_note t w).1 = Raise EmbeddingError ∧
     calls_made (add_note t) w
       = [Count NAME; EmbeddingsCreate (embedding_request t)] ∧
     upserted (calls_made (add_note t) w) = [] ∧
     qdrant (after (add_note t) w) = qdrant w) ∧
  (∀ s,
     s ≠ "" →
     embeddings_create (embedding_request s) = None →
     (find_notes (Some s) w).1 = Raise EmbeddingError ∧
     calls_made (find_notes (Some s)) w
       = [EmbeddingsCreate (embedding_request s)] ∧
     searches (calls_made (find_notes (Some s)) w) = [] ∧
     qdrant (after (find_notes (Some s)) w) = qdrant w).
Proof.
  split.
  - intros c t Hc Hfail.
    pose proof (add_note_to_db_run t w) as R.
    unfold embedding_of in R. rewrite Hc, Hfail in R. simpl in R.
    rewrite (calls_made_eq _ _ _ _ _ R eq_refl). unfold after. by rewrite R.
  - intros s Hs Hfail.
    pose proof (list_notes_search_run s w Hs) as R.
    unfold embedding_of in R. rewrite Hfail in R. simpl in R.
    rewrite (calls_made_eq _ _ _ _ _ R eq_refl). unfold after. by rewrite R.
Qed.

(** ** Bootstrap *)

(** C4.  When the collection exists, any number of bootstraps succeeds
    without a creation call and leaves the store as it was.  When it does
    not, [N >= 1] bootstraps in a row succeed and make exactly one
    creation call, for a collection of vector size 3072 and cosine
    distance. *)
Theorem ensure_collection_exists_idempotent w N :
  (is_Some (qdrant w !! NAME) →
   (times N ensure_collection_exists w).1 = Return tt ∧
   creations (calls_made (times N ensure_collection_exists) w) = [] ∧
   qdrant (after (times N ensure_collection_exists) w) = qdrant w) ∧
  (qdrant w !! NAME = None →
   (0 < N)%nat →
   (times N ensure_collection_exists w).1 = Return tt ∧
   creations (calls_made (times N ensure_collection_exists) w)
     = [(NAME, {| vp_size := 3072; vp_distance := COSINE |})] ∧
   qdrant (after (times N ensure_collection_exists) w) !! NAME
     = Some {| config := {| vp_size := 3072; vp_distance := COSINE |};
               points := ∅ |}).
Proof.
  split.
  - intros Hc. pose proof (times_assure_present N w Hc) as R.
    rewrite (calls_made_eq _ _ _ _ _ R eq_refl). unfold after. rewrite R.
    by rewrite creations_replicate_exists.
  - intros Hc HN. destruct N as [|n]; [lia|].
    assert (times (S n) ensure_collection_exists w =
              (Return tt,
               {| qdrant := <[NAME := {| config := {| vp_size := EMBEDDING_DIM;
                                                       vp_distance := COSINE |};
                                         points := ∅ |}]> (qdrant w);
                  calls := calls w ++
                    [CollectionExists NAME;
                     CreateCollection NAME {| vp_size := EMBEDDING_DIM;
                                              vp_distance := COSINE |}]
                    ++ replicate n (CollectionExists NAME) |})) as R.
    { cbn [times]. change (mbind ?k ?m) with (bind m k). unfold bind.
      rewrite assure_db_collection_exists_run, Hc. cbv beta iota zeta.
      rewrite times_assure_present by (simpl; rewrite lookup_insert_eq; eauto).
      unfold logged. simpl. by rewrite <- (assoc_L (++)). }
    rewrite (calls_made_eq _ _ _ _ _ R eq_refl).
    rewrite creations_app, creations_replicate_exists.
    unfold after. rewrite R.
    split; [done|]. split; [done|apply lookup_insert_eq].
Qed.

(** ** Listing and searching *)

(** C8.  On a collection without points, [find_notes] without a query
    returns the empty list, after one [scroll] call. *)
Theorem find_notes_empty_collection w c :
  qdrant w !! NAME = Some c →
  points c = ∅ →
  find_notes None w = (Return [], logged [Scroll NAME 10] w).
Proof.
  intros Hc Hempty. rewrite list_notes_listing_run by done. rewrite Hc.
  unfold first_page, points_by_id. rewrite Hempty, map_to_list_empty.
  done.
Qed.

(** C7.  Without a query, or with the empty string, [find_notes] makes
    one call, the [scroll] with limit 10: no embedding is requested and no
    search is issued.  Every result it returns has no score, and it does
    return when the collection exists and its payloads have a text. *)
Theorem find_notes_unfiltered_listing w query :
  query = None ∨ query = Some "" →
  calls_made (find_notes query) w = [Scroll NAME 10] ∧
  requests (calls_made (find_notes query) w) = [] ∧
  searches (calls_made (find_notes query) w) = [] ∧
  (∀ r, (find_notes query w).1 = Return r → Forall (λ res, score res = None) r) ∧
  (∀ c, qdrant w !! NAME = Some c → has_text c →
        ∃ r, (find_notes query w).1 = Return r).
Proof.
  intros Hq.
  assert (truthy query = false) as Hf by (by destruct Hq as [-> | ->]).
  pose proof (list_notes_listing_run query w Hf) as R.
  rewrite (calls_made_eq _ _ _ _ _ R eq_refl), R. cbn [fst].
  do 3 (split; [done|]). split.
  - intros r Hr. destruct (qdrant w !! NAME) as [c|]; [|done].
    destruct (mapM _ _) as [r'|] eqn:Hm; [|done].
    injection Hr as ->. apply mapM_Some_1 in Hm.
    eapply Forall2_Forall_r; [exact Hm|].
    apply Forall_forall. intros x _ y Hy. unfold listed_result in Hy.
    destruct (rec_payload x !! "text"); simpl in Hy; [|done].
    by injection Hy as <-.
  - intros c Hc Htext. rewrite Hc.
    destruct (listed_page_returns c 10 Htext) as [r ->]. by exists r.
Qed.

(** C5.  Whatever [find_notes] returns, with or without a query, has at
    most 10 elements; and it does return when the collection exists, its
    payloads have a text, and the embedding of a given query is available
    and of the collection's size. *)
Theorem find_notes_limit w query :
  (∀ r, (find_notes query w).1 = Return r → (length r ≤ 10)%nat) ∧
  (∀ c, qdrant w !! NAME = Some c →
        has_text c →
        (∀ s, query = Some s → s ≠ "" →
              ∃ qv, embedding_of embeddings_create s = Some qv ∧
                    dim qv = vp_size (config c)) →
        ∃ r, (find_notes query w).1 = Return r ∧ (length r ≤ 10)%nat).
Proof.
  assert (∀ r, (find_notes query w).1 = Return r → (length r ≤ 10)%nat) as Hlen.
  { intros r. destruct (truthy query) eqn:Hq.
    - destruct query as [s|]; [|done].
      pose proof (truthy_Some s Hq) as Hs.
      rewrite (list_notes_search_run s w Hs).
      destruct (embedding_of embeddings_create s) as [qv|]; [|done].
      cbn [fst]. destruct (qdrant w !! NAME) as [c|]; [|done].
      destruct (fits dim c qv); [|done].
      destruct (mapM _ _) as [r'|] eqn:Hm; [|done].
      intros [= ->]. apply length_mapM in Hm. rewrite <- Hm.
      apply (length_nearest c qv 10).
    - rewrite (list_notes_listing_run query w Hq). cbn [fst].
      destruct (qdrant w !! NAME) as [c|]; [|done].
      destruct (mapM _ _) as [r'|] eqn:Hm; [|done].
      intros [= ->]. apply length_mapM in Hm. rewrite <- Hm, length_fmap.
      apply (length_first_page c 10). }
  split; [exact Hlen|].
  intros c Hc Htext Hemb.
  assert (∃ r, (find_notes query w).1 = Return r) as [r Hr]; [|by eauto].
  destruct (truthy query) eqn:Hq.
  - destruct query as [s|]; [|done].
    pose proof (truthy_Some s Hq) as Hs.
    rewrite (list_notes_search_run s w Hs).
    destruct (Hemb s eq_refl Hs) as (qv & -> & Hdim). cbn [fst]. rewrite Hc.
    unfold fits. rewrite (proj2 (Z.eqb_eq _ _) Hdim).
    destruct (nearest_returns c qv 10 Htext) as [r ->]. by exists r.
  - rewrite (list_notes_listing_run query w Hq). cbn [fst]. rewrite Hc.
    destruct (listed_page_returns c 10 Htext) as [r ->]. by exists r.
Qed.

(** C6.  With a non-empty query whose embedding is [qv], on a collection
    of the size of [qv], under a similarity metric (cosine, as the
    bootstrap configures it), all of whose points carry a text,
    [find_notes] requests that embedding, issues one search for [qv] with
    limit 10, and returns exactly the hits of that search, one result per
    hit and in the order of the store: as many as there are points, up to
    ten, scores descending, each result carrying the text of its hit and
    the score the store reports for it, which is the similarity the store
    computes between [qv] and the vector of a stored point with that
    text. *)
Theorem find_notes_search_ranked `{!Total score_le, !Transitive score_le}
    w c s qv :
  s ≠ "" →
  qdrant w !! NAME = Some c →
  has_text c →
  higher_is_better (vp_distance (config c)) = true →
  embedding_of embeddings_create s = Some qv →
  dim qv = vp_size (config c) →
  ∃ r,
    find_notes (Some s) w =
      (Return r,
       logged [EmbeddingsCreate (embedding_request s); Search NAME qv 10] w) ∧
    Forall2 (λ hit res, scp_payload hit !! "text" = Some (text res) ∧
                        score res = Some (scp_score hit))
            (nearest similarity score_le c qv 10) r ∧
    length r = (10 `min` size (points c))%nat ∧
    StronglySorted (result_ge score_le) r ∧
    Forall (λ res, ∃ k p,
              points c !! k = Some p ∧
              sp_payload p !! "text" = Some (text res) ∧
              score res
                = Some (similarity (vp_distance (config c)) qv (sp_vector p))) r.
Proof.
  intros Hs Hc Htext Hmetric Hqv Hdim.
  rewrite (list_notes_search_run s w Hs), Hqv, Hc.
  unfold fits. rewrite (proj2 (Z.eqb_eq _ _) Hdim).
  destruct (nearest_returns c qv 10 Htext) as [r Hr]. rewrite Hr.
  exists r. split; [done|].
  apply mapM_Some_1 in Hr. split; [|split; [|split]].
  - eapply Forall2_impl; [exact Hr|].
    intros hit res Hres. unfold scored_result in Hres.
    destruct (scp_payload hit !! "text") as [t|]; simpl in Hres; [|done].
    by injection Hres as <-.
  - rewrite <- (Forall2_length _ _ _ Hr). unfold nearest.
    rewrite length_take, merge_sort_Permutation, length_fmap.
    unfold points_by_id.
    by rewrite merge_sort_Permutation, length_map_to_list.
  - eapply (StronglySorted_Forall2 (score_ge score_le)); [|exact Hr|].
    + intros x x' y y' Hy Hy' Hxx'. unfold scored_result in Hy, Hy'.
      destruct (scp_payload x !! "text"); simpl in Hy; [|done].
      destruct (scp_payload x' !! "text"); simpl in Hy'; [|done].
      injection Hy as <-. injection Hy' as <-. exact Hxx'.
    + by apply nearest_descending.
  - eapply Forall2_Forall_r; [exact Hr|].
    apply Forall_forall. intros hit (k & p & Hp & ->)%elem_of_nearest y Hy.
    exists k, p. split; [done|].
    unfold scored_result, to_scored in Hy. simpl in Hy.
    destruct (sp_payload p !! "text") as [t|]; simpl in Hy; [|done].
    by injection Hy as <-.
Qed.

(** C9.  Every point [add_note] hands to [upsert] carries the first vector
    of the answer to an embedding request the same call made, and that
    request asks for [EMBEDDING_DIM] = 3072 dimensions; every collection
    the bootstrap creates has [EMBEDDING_DIM] as its vector size. *)
Theorem stored_vectors_requested_dimension w t :
  (∀ pt, pt ∈ upserted (calls_made (add_note t) w) →
     ∃ req data,
       req ∈ requests (calls_made (add_note t) w) ∧
       er_dimensions req = EMBEDDING_DIM ∧
       embeddings_create req = Some data ∧
       head data = Some (pt_vector pt)) ∧
  (∀ w0 name cfg,
     (name, cfg) ∈ creations (calls_made ensure_collection_exists w0) →
     vp_size cfg = EMBEDDING_DIM) ∧
  EMBEDDING_DIM = 3072.
Proof.
  split; [|split; [|done]].
  - intros pt. pose proof (add_note_to_db_run t w) as R.
    destruct (qdrant w !! NAME) as [c|].
    + destruct (embedding_of embeddings_create t) as [v|] eqn:Hv.
      * cbv zeta in R.
        assert (calls_made (add_note t) w =
                  [Count NAME; EmbeddingsCreate (embedding_request t);
                   Upsert NAME [note_point (Z.of_nat (size (points c)) + 1) v t]])
          as -> by (destruct (fits dim c v);
                    by rewrite (calls_made_eq _ _ _ _ _ R eq_refl)).
        intros ->%list_elem_of_singleton.
        unfold embedding_of in Hv. apply bind_Some in Hv as (data & Hd & Hh).
        exists (embedding_request t), data.
        split; [by apply list_elem_of_singleton|done].
      * rewrite (calls_made_eq _ _ _ _ _ R eq_refl). by intros ?%elem_of_nil.
    + rewrite (calls_made_eq _ _ _ _ _ R eq_refl). by intros ?%elem_of_nil.
  - intros w0 name cfg. pose proof (assure_db_collection_exists_run w0) as R.
    destruct (qdrant w0 !! NAME).
    + rewrite (calls_made_eq _ _ _ _ _ R eq_refl). by intros ?%elem_of_nil.
    + rewrite (calls_made_eq _ _ _ _ _ R eq_refl).
      by intros [= _ ->]%list_elem_of_singleton.
Qed.

(** C3 (as amended).  After [add_note t] succeeds on a collection whose
    payloads have a text and in which fewer than 10 points have an id
    below that of the new note, [find_notes] without a query returns a
    list that contains the note's text, without score. *)
Theorem add_note_then_listed w c t w1 :
  qdrant w !! NAME = Some c →
  has_text c →
  (ids_below (Z.of_nat (size (points c)) + 1) c < 10)%nat →
  add_note t w = (Return tt, w1) →
  ∃ r, (find_notes None w1).1 = Return r ∧
       {| text := t; score := None |} ∈ r.
Proof.
  intros Hc Htext Hbelow Hadd.
  rewrite add_note_to_db_run, Hc in Hadd.
  destruct (embedding_of embeddings_create t) as [v|]; [|done].
  cbv zeta in Hadd. destruct (fits dim c v); [|done]. injection Hadd as <-.
  set (k := Z.of_nat (size (points c)) + 1) in *.
  set (new := {| sp_vector := v; sp_payload := {[ "text" := t ]} |}).
  set (c1 := {| config := config c;
                points := upsert_point (points c) (note_point k v t) |}).
  assert (has_text c1) as Htext1.
  { apply map_Forall_insert_2; [|done]. simpl.
    rewrite lookup_singleton_eq. by eexists. }
  rewrite (list_notes_listing_run None _ eq_refl). cbn [fst qdrant].
  rewrite lookup_insert_eq. fold c1.
  destruct (listed_page_returns c1 10 Htext1) as [r Hr]. rewrite Hr.
  exists r. split; [done|].
  assert ((k, new) ∈ first_page c1 10) as Hin.
  { apply elem_of_first_page_below; [apply lookup_insert_eq|].
    by rewrite (ids_below_upsert k new c c1 eq_refl). }
  apply mapM_Some_1, Forall2_fmap_l in Hr.
  apply list_elem_of_lookup in Hin as [i Hi].
  destruct (Forall2_lookup_l _ _ _ _ _ Hr Hi) as (y & Hy & Hres).
  apply list_elem_of_lookup. exists i. rewrite Hy. f_equal.
  unfold listed_result, to_record, new in Hres. simpl in Hres.
  rewrite lookup_singleton_eq in Hres. simpl in Hres. by injection Hres.
Qed.

End Properties.

(** * The properties on concrete stores *)

Section Concrete.

Import Stub.

Local Abbreviation NAME := QDRANT_COLLECTION_NAME.

(** C1, as stated, fails on a collection with count 5 that holds a point
    6: [add_note "x"] assigns 6, replaces that point, the count stays 5,
    and the following [add_note "y"] assigns 6 again, not 7. *)
Lemma add_note_id_reused :
  size (points (collection_of gap_world)) = 5%nat ∧
  (add_note "x" gap_world).1 = Return tt ∧
  pt_id <$> upserted (calls_made (add_note "x") gap_world) = [6] ∧
  (add_note "y" (after (add_note "x") gap_world)).1 = Return tt ∧
  pt_id <$> upserted (calls_made (add_note "y") (after (add_note "x") gap_world))
    = [6] ∧
  pt_id <$> upserted (calls_made (add_note "y") (after (add_note "x") gap_world))
    ≠ [7].
Proof. repeat split; by vm_compute. Qed.

(** From the five notes the application added itself: ids 6, then 7. *)
Lemma add_note_id_assignment_witness :
  size (points (collection_of five_notes)) = 5%nat ∧
  pt_id <$> upserted (calls_made (add_note "x") five_notes) = [6] ∧
  pt_id <$> upserted (calls_made (add_note "y") (after (add_note "x") five_notes))
    = [7].
Proof.
  destruct (add_note_id_assignment dim embed five_notes (collection_of five_notes)
              "x" "y" 1 1) as [H1 H2]; [by vm_compute..|].
  split; [by vm_compute|]. split.
  - unfold add_note. rewrite H1. by vm_compute.
  - unfold add_note. rewrite H2; by vm_compute.
Defined.

Lemma add_note_replaces_existing_witness :
  ∃ w' c',
    add_note "x" gap_world = (Return tt, w') ∧
    qdrant w' !! NAME = Some c' ∧
    points c' !! 6 = Some {| sp_vector := 1; sp_payload := {[ "text" := "x" ]} |} ∧
    size (points c') = 5%nat.
Proof.
  destruct (add_note_replaces_existing dim embed gap_world (collection_of gap_world)
              "x" 1 {| sp_vector := 6; sp_payload := {[ "text" := "old" ]} |})
    as (w' & c' & Hadd & Hc' & Hnew & Hsize & _); [by vm_compute..|].
  exists w', c'. by repeat split.
Defined.

Lemma embedding_failure_propagates_witness :
  (add_note_to_db dim unavailable "x" five_notes).1 = Raise EmbeddingError ∧
  upserted (calls_made (add_note_to_db dim unavailable "x") five_notes) = [] ∧
  qdrant (after (add_note_to_db dim unavailable "x") five_notes) = qdrant five_notes ∧
  (list_notes_from_db dim unavailable sim Z.le (Some "query") five_notes).1
    = Raise EmbeddingError ∧
  searches (calls_made (list_notes_from_db dim unavailable sim Z.le (Some "query"))
              five_notes) = [].
Proof.
  destruct (embedding_failure_propagates dim unavailable sim Z.le five_notes)
    as [Hadd Hfind].
  destruct (Hadd (collection_of five_notes) "x") as (? & _ & ? & ?);
    [by vm_compute|reflexivity|].
  destruct (Hfind "query") as (? & _ & ? & _); [done|reflexivity|].
  by repeat split.
Defined.

Lemma ensure_collection_exists_idempotent_witness :
  creations (calls_made (times 3 assure_db_collection_exists) empty_world)
    = [(NAME, {| vp_size := 3072; vp_distance := COSINE |})] ∧
  (times 3 assure_db_collection_exists empty_world).1 = Return tt ∧
  creations (calls_made (times 3 assure_db_collection_exists) five_notes) = [] ∧
  qdrant (after (times 3 assure_db_collection_exists) five_notes)
    = qdrant five_notes.
Proof.
  destruct (ensure_collection_exists_idempotent empty_world 3) as [_ Habsent].
  destruct (ensure_collection_exists_idempotent five_notes 3) as [Hpresent _].
  destruct Habsent as (? & ? & _); [by vm_compute|lia|].
  destruct Hpresent as (_ & ? & ?);
    [exists (collection_of five_notes); by vm_compute|].
  by repeat split.
Defined.

Lemma find_notes_empty_collection_witness :
  find_notes None bootstrapped = (Return [], logged [Scroll NAME 10] bootstrapped).
Proof.
  apply (find_notes_empty_collection dim embed sim Z.le bootstrapped
           (collection_of bootstrapped)); by vm_compute.
Defined.

Ltac by_computation := refine (bool_decide_unpack _ _); vm_compute; exact I.

(** C3, as stated, fails once ten notes are stored: the eleventh note is
    added under id 11, and the listing returns the ten points with the
    smallest ids. *)
Lemma add_note_not_listed :
  (add_note "hello world" ten_notes).1 = Return tt ∧
  ∃ r, (find_notes None (after (add_note "hello world") ten_notes)).1 = Return r ∧
       length r = 10%nat ∧
       Forall (λ res, text res ≠ "hello world") r.
Proof.
  split; [by vm_compute|].
  eexists. split; [vm_compute; reflexivity|].
  split; [reflexivity|]. repeat constructor; discriminate.
Qed.

Lemma add_note_then_listed_witness :
  ∃ r, (find_notes None (after (add_note "hello world") five_notes)).1 = Return r ∧
       {| text := "hello world"; score := None |} ∈ r.
Proof.
  apply (add_note_then_listed dim embed sim Z.le five_notes
           (collection_of five_notes) "hello world").
  - by vm_compute.
  - unfold has_text. by_computation.
  - vm_compute. lia.
  - by vm_compute.
Defined.

Lemma find_notes_limit_witness :
  (∃ r, (find_notes None fifteen_notes).1 = Return r ∧ (length r ≤ 10)%nat) ∧
  (∃ r, (find_notes (Some "query") fifteen_notes).1 = Return r ∧
        (length r ≤ 10)%nat).
Proof.
  assert (has_text (collection_of fifteen_notes)) as Htext
    by (unfold has_text; by_computation).
  split.
  - destruct (find_notes_limit dim embed sim Z.le fifteen_notes None) as [_ H].
    apply (H (collection_of fifteen_notes)); [by vm_compute|done|].
    by intros s [=].
  - destruct (find_notes_limit dim embed sim Z.le fifteen_notes (Some "query"))
      as [_ H].
    apply (H (collection_of fifteen_notes)); [by vm_compute|done|].
    intros s [= <-] _. exists 5. by vm_compute.
Defined.

(** C6, as stated, fails on two kinds of collection.  Where a point has
    no text, the embedding of the query is computed and the search is
    issued, and the call raises [KeyError] where it reads the text of the
    second hit, instead of returning the results.  Where the collection is
    under a distance metric, the store answers nearest first, and the
    results are returned with their scores ascending. *)
Lemma find_notes_search_unranked :
  (embedding_of embed "a" = Some 1 ∧
   nearest sim Z.le (collection_of untitled_world) 1 10
     = [ {| scp_id := 1; scp_score := 0; scp_payload := {[ "text" := "a" ]} |};
         {| scp_id := 2; scp_score := -1; scp_payload := ∅ |} ] ∧
   find_notes (Some "a") untitled_world
     = (Raise KeyError,
        logged [EmbeddingsCreate (embedding_request "a"); Search NAME 1 10]
          untitled_world)) ∧
  (vp_distance (config (collection_of euclid_world)) = EUCLID ∧
   (list_notes_from_db dim embed reported Z.le (Some "a") euclid_world).1
     = Return [ {| text := "a"; score := Some 0 |};
                {| text := "bbb"; score := Some 2 |} ] ∧
   ¬ StronglySorted (result_ge Z.le)
       [ {| text := "a"; score := Some 0 |};
         {| text := "bbb"; score := Some 2 |} ]).
Proof.
  split; [repeat split; by vm_compute|].
  split; [by vm_compute|]. split; [by vm_compute|].
  intros Hsorted. apply StronglySorted_inv in Hsorted as [_ Hfirst].
  apply Forall_inv in Hfirst. unfold result_ge in Hfirst. simpl in Hfirst. lia.
Qed.

Lemma find_notes_search_ranked_witness :
  ∃ r, find_notes (Some "baking dessert") three_notes =
         (Return r,
          logged [EmbeddingsCreate (embedding_request "baking dessert");
                  Search NAME 14 10] three_notes) ∧
       StronglySorted (result_ge Z.le) r ∧
       text <$> r = ["apple pie recipe"; "car engine repair"; "tea"].
Proof.
  destruct (find_notes_search_ranked dim embed sim Z.le three_notes
              (collection_of three_notes) "baking dessert" 14)
    as (r & Hr & _ & _ & Hsorted & _).
  - done.
  - by vm_compute.
  - unfold has_text. by_computation.
  - by vm_compute.
  - by vm_compute.
  - by vm_compute.
  - exists r. split; [exact Hr|]. split; [exact Hsorted|].
    assert ((find_notes (Some "baking dessert") three_notes).1 =
              Return [ {| text := "apple pie recipe"; score := Some (-2) |};
                       {| text := "car engine repair"; score := Some (-3) |};
                       {| text := "tea"; score := Some (-11) |} ]) as Hrun
      by (by vm_compute).
    unfold find_notes in Hr, Hrun. rewrite Hr in Hrun.
    by injection Hrun as ->.
Defined.

Lemma find_notes_unfiltered_listing_witness :
  calls_made (find_notes (Some "")) five_notes = [Scroll NAME 10] ∧
  ∃ r, (find_notes (Some "") five_notes).1 = Return r ∧
       Forall (λ res, score res = None) r.
Proof.
  destruct (find_notes_unfiltered_listing dim embed sim Z.le five_notes (Some ""))
    as (Hcalls & _ & _ & Hscore & Hret); [by right|].
  split; [exact Hcalls|].
  destruct (Hret (collection_of five_notes)) as [r Hr];
    [by vm_compute|unfold has_text; by_computation|].
  exists r. split; [exact Hr|]. by apply Hscore.
Defined.

Lemma stored_vectors_requested_dimension_witness :
  ∃ pt req data,
    pt ∈ upserted (calls_made (add_note "x") five_notes) ∧
    req ∈ requests (calls_made (add_note "x") five_notes) ∧
    er_dimensions req = 3072 ∧
    embed req = Some data ∧
    head data = Some (pt_vector pt).
Proof.
  destruct (stored_vectors_requested_dimension dim embed five_notes "x")
    as (Hvec & _ & Hdim).
  assert (note_point 6 1 "x" ∈ upserted (calls_made (add_note "x") five_notes))
    as Hin by (apply list_elem_of_singleton; by vm_compute).
  destruct (Hvec _ Hin) as (req & data & Hreq & Hd & Hdata & Hhead).
  exists (note_point 6 1 "x"), req, data.
  repeat split; [exact Hin|exact Hreq| |exact Hdata|exact Hhead].
  by rewrite Hd.
Defined.

End Concrete.

(** * Further properties of the note repository *)

Section Journal.

Context {Vec Score : Type}.
Variable dim : Vec → Z.
Variable embeddings_create : EmbeddingRequest → option (list Vec).
Variable similarity : Distance → Vec → Vec → Score.
Variable score_le : relation Score.
Context `{!RelDecision score_le}.

Implicit Types (w : @World Vec) (c : @Collection Vec) (v : Vec).
Implicit Types (p : @StoredPoint Vec) (name t : string).

Local Abbreviation add_note := (add_note_to_db dim embeddings_create).
Local Abbreviation find_notes :=
  (list_notes_from_db dim embeddings_create similarity score_le).
Local Abbreviation ensure_collection_exists :=
  (assure_db_collection_exists (Vec:=Vec)).
Local Abbreviation NAME := QDRANT_COLLECTION_NAME.

(** ** Numbered points *)

Lemma numbered_keys k notes j p :
  (j, p) ∈ numbered k notes → (k ≤ j < k + Z.of_nat (length notes))%Z.
Proof.
  revert k. induction notes as [|[t v] notes IH]; intros k; simpl.
  - by intros ?%elem_of_nil.
  - intros [[= -> ->]|Hin%IH]%elem_of_cons; lia.
Qed.

Lemma numbered_length k (notes : list (string * Vec)) :
  length (numbered k notes) = length notes.
Proof.
  revert k. induction notes as [|[t v] notes IH]; intros k; simpl; [done|].
  by rewrite IH.
Qed.

Lemma numbered_app k (l1 l2 : list (string * Vec)) :
  numbered k (l1 ++ l2)
    = numbered k l1 ++ numbered (k + Z.of_nat (length l1)) l2.
Proof.
  revert k. induction l1 as [|[t v] l1 IH]; intros k; simpl.
  - by rewrite Z.add_0_r.
  - rewrite IH. do 3 f_equal. lia.
Qed.

Lemma numbered_NoDup k (notes : list (string * Vec)) :
  NoDup (numbered k notes).*1.
Proof.
  revert k. induction notes as [|[t v] notes IH]; intros k; simpl.
  - constructor.
  - constructor; [|apply IH].
    intros ([j p] & -> & Hin%numbered_keys)%list_elem_of_fmap. simpl in *. lia.
Qed.

Lemma numbered_sorted k (notes : list (string * Vec)) :
  StronglySorted id_le (numbered k notes).
Proof.
  revert k. induction notes as [|[t v] notes IH]; intros k; simpl.
  - constructor.
  - constructor; [apply IH|].
    apply Forall_forall. intros [j p] Hin%numbered_keys.
    unfold id_le. simpl. lia.
Qed.

(** A collection whose points are a list in strict id order is paged in
    that order. *)
Lemma points_by_id_list_to_map cfg (l : list (Z * @StoredPoint Vec)) :
  StronglySorted id_le l →
  NoDup l.*1 →
  points_by_id {| config := cfg; points := list_to_map l |} = l.
Proof.
  intros Hsorted Hnodup.
  assert (points_by_id {| config := cfg; points := list_to_map l |} ≡ₚ l) as Hperm.
  { unfold points_by_id. rewrite merge_sort_Permutation. cbn [points].
    by apply map_to_list_to_map. }
  apply (StronglySorted_unique_strong id_le); [|apply points_by_id_sorted|done..].
  intros [k1 p1] [k2 p2] Hin1 Hin2 Hle1 Hle2. unfold id_le in *. simpl in *.
  assert (k1 = k2) as -> by lia. f_equal.
  rewrite Hperm in Hin1.
  apply (elem_of_list_to_map (M:=gmap Z) _ _ _ Hnodup) in Hin1, Hin2. congruence.
Qed.

Lemma numbered_listed {S} n k (notes : list (string * Vec)) :
  mapM (listed_result (Score:=S)) (to_record <$> take n (numbered k notes))
    = Some (listed <$> take n notes.*1).
Proof.
  revert n k. induction notes as [|[t v] notes IH]; intros [|n] k; try done.
  cbn [numbered take fmap list_fmap fst mapM].
  rewrite IH. unfold listed_result, to_record. cbn [rec_payload sp_payload snd].
  by rewrite lookup_singleton_eq.
Qed.

(** Adding notes one after the other to a collection that holds the
    notes [stored] under the ids 1, 2, ... appends them under the next ids. *)
Lemma add_notes_run (stored notes : list (string * Vec)) cfg w :
  qdrant w !! NAME
    = Some {| config := cfg; points := list_to_map (numbered 1 stored) |} →
  Forall (λ tv, embedding_of embeddings_create tv.1 = Some tv.2 ∧
                dim tv.2 = vp_size cfg) notes →
  ∃ w', add_notes dim embeddings_create notes.*1 w = (Return tt, w') ∧
        qdrant w' = <[NAME := {| config := cfg;
                                 points := list_to_map (numbered 1 (stored ++ notes)) |}]>
                      (qdrant w).
Proof.
  revert stored w. induction notes as [|[t v] notes IH]; intros stored w Hc Hok.
  - exists w. split; [done|]. rewrite (right_id_L [] (++)).
    by rewrite insert_id.
  - apply Forall_cons in Hok as [[Hv Hdim] Hok]. simpl in Hv, Hdim.
    cbn [fmap list_fmap fst add_notes].
    change (mbind ?k ?m) with (bind m k). unfold bind.
    rewrite (add_note_to_db_run dim embeddings_create t w), Hc, Hv. cbv zeta.
    unfold fits. cbn [config points]. rewrite (proj2 (Z.eqb_eq _ _) Hdim).
    rewrite map_size_list_to_map, numbered_length by apply numbered_NoDup.
    assert (upsert_point (list_to_map (numbered 1 stored))
              (note_point (Z.of_nat (length stored) + 1) v t)
            = list_to_map (numbered 1 (stored ++ [(t, v)]))) as ->.
    { rewrite numbered_app. simpl.
      rewrite list_to_map_snoc.
      - unfold upsert_point, note_point. cbn [pt_id pt_vector pt_payload].
        f_equal. lia.
      - intros ([j p] & Hj & Hin%numbered_keys)%list_elem_of_fmap.
        simpl in Hj. lia. }
    match goal with |- context [add_notes _ _ _ ?w1] =>
      destruct (IH (stored ++ [(t, v)]) w1) as (w' & Hrun & Hw');
        [apply lookup_insert_eq|exact Hok|]
    end.
    exists w'. split; [exact Hrun|]. rewrite Hw'. cbn [qdrant].
    rewrite insert_insert_eq. by rewrite <- (assoc_L (++)).
Qed.

(** ** What a user of the repository can rely on *)

(** X1.  A fresh store, the bootstrap, then one [add_note] per text (each
    embedding being available and of 3072 components): every call
    succeeds, the collection holds the notes under the ids 1, 2, ... in the
    order they were added, and a listing returns the texts of the first
    ten, in that order, without scores. *)
Theorem notes_listed_in_order w (notes : list (string * Vec)) :
  qdrant w !! NAME = None →
  Forall (λ tv, embedding_of embeddings_create tv.1 = Some tv.2 ∧
                dim tv.2 = EMBEDDING_DIM) notes →
  ∃ w',
    (ensure_collection_exists;; add_notes dim embeddings_create notes.*1) w
      = (Return tt, w') ∧
    qdrant w' !! NAME
      = Some {| config := {| vp_size := 3072; vp_distance := COSINE |};
                points := list_to_map (numbered 1 notes) |} ∧
    (find_notes None w').1 = Return (listed <$> take 10 notes.*1).
Proof.
  intros Hw Hok.
  change (mbind ?k ?m) with (bind m k). unfold bind.
  rewrite assure_db_collection_exists_run, Hw. cbv beta iota zeta.
  match goal with |- context [add_notes _ _ _ ?w1] => set (w1' := w1) end.
  destruct (add_notes_run [] notes
              {| vp_size := EMBEDDING_DIM; vp_distance := COSINE |} w1')
    as (w' & Hrun & Hw'); [apply lookup_insert_eq|done|].
  exists w'. split; [exact Hrun|].
  assert (qdrant w' !! NAME
            = Some {| config := {| vp_size := 3072; vp_distance := COSINE |};
                      points := list_to_map (numbered 1 notes) |}) as Hc
    by (rewrite Hw'; apply lookup_insert_eq).
  split; [exact Hc|].
  rewrite (list_notes_listing_run dim embeddings_create similarity score_le
             None w' eq_refl). cbn [fst]. rewrite Hc.
  unfold first_page.
  rewrite points_by_id_list_to_map by (apply numbered_sorted || apply numbered_NoDup).
  change (Z.to_nat 10) with 10%nat.
  by rewrite numbered_listed.
Qed.

(** X2.  Whenever [add_note] raises, for whatever reason, the store is as
    it was before the call. *)
Theorem add_note_failure_atomic w t e :
  (add_note t w).1 = Raise e →
  qdrant (after (add_note t) w) = qdrant w.
Proof.
  unfold after. rewrite add_note_to_db_run.
  destruct (qdrant w !! NAME) as [c|]; [|done].
  destruct (embedding_of embeddings_create t) as [v|]; [|done].
  cbv zeta. by destruct (fits dim c v).
Qed.

(** X3.  Without the collection, [add_note] fails at its first call, the
    count: no embedding is requested and nothing is upserted; a listing
    fails at its scroll call. *)
Theorem missing_collection_fails_first w t :
  qdrant w !! NAME = None →
  add_note t w = (Raise StoreError, logged [Count NAME] w) ∧
  requests (calls_made (add_note t) w) = [] ∧
  upserted (calls_made (add_note t) w) = [] ∧
  find_notes None w = (Raise StoreError, logged [Scroll NAME 10] w).
Proof.
  intros Hw. pose proof (add_note_to_db_run dim embeddings_create t w) as R.
  rewrite Hw in R. rewrite (calls_made_eq _ _ _ _ _ R eq_refl).
  split; [exact R|]. do 2 (split; [done|]).
  rewrite (list_notes_listing_run dim embeddings_create similarity score_le
             None w eq_refl).
  by rewrite Hw.
Qed.

(** X4.  A successful [add_note] changes one thing: the point under the id
    [count + 1] of the notes collection, which now holds the embedding and
    the text.  The configuration of the collection, its other points and
    the other collections of the store are as before. *)
Theorem add_note_frame w c t w1 :
  qdrant w !! NAME = Some c →
  add_note t w = (Return tt, w1) →
  ∃ c1 v,
    qdrant w1 !! NAME = Some c1 ∧
    config c1 = config c ∧
    embedding_of embeddings_create t = Some v ∧
    points c1 !! (Z.of_nat (size (points c)) + 1)
      = Some {| sp_vector := v; sp_payload := {[ "text" := t ]} |} ∧
    (∀ k, k ≠ Z.of_nat (size (points c)) + 1 → points c1 !! k = points c !! k) ∧
    (∀ name, name ≠ NAME → qdrant w1 !! name = qdrant w !! name).
Proof.
  intros Hc Hadd. rewrite add_note_to_db_run, Hc in Hadd.
  destruct (embedding_of embeddings_create t) as [v|]; [|done].
  cbv zeta in Hadd. destruct (fits dim c v); [|done]. injection Hadd as <-.
  eexists _, v. cbn [qdrant]. split; [apply lookup_insert_eq|].
  cbn [config points]. unfold upsert_point, note_point.
  cbn [pt_id pt_vector pt_payload].
  do 2 (split; [done|]). split; [apply lookup_insert_eq|]. split.
  - intros k Hk. by apply lookup_insert_ne.
  - intros name Hname. by apply lookup_insert_ne.
Qed.

(** X5.  [find_notes] only reads: whatever the query and whatever the
    outcome, the store is as it was and nothing was upserted or created. *)
Theorem find_notes_read_only w query :
  qdrant (after (find_notes query) w) = qdrant w ∧
  upserted (calls_made (find_notes query) w) = [] ∧
  creations (calls_made (find_notes query) w) = [].
Proof.
  destruct (truthy query) eqn:Hq.
  - destruct query as [s|]; [|done].
    pose proof (truthy_Some s Hq) as Hs.
    pose proof (list_notes_search_run dim embeddings_create similarity
                  score_le s w Hs) as R.
    destruct (embedding_of embeddings_create s) as [qv|];
      rewrite (calls_made_eq _ _ _ _ _ R eq_refl); unfold after; by rewrite R.
  - pose proof (list_notes_listing_run dim embeddings_create similarity
                  score_le query w Hq) as R.
    rewrite (calls_made_eq _ _ _ _ _ R eq_refl). unfold after. by rewrite R.
Qed.

(** X6.  A listing fails with [KeyError] exactly when one of the points
    of the first page has no "text" entry in its payload; a point further
    down the collection does no harm. *)
Theorem find_notes_missing_text w c :
  qdrant w !! NAME = Some c →
  (find_notes None w).1 = Raise KeyError ↔
  ∃ k p, (k, p) ∈ first_page c 10 ∧ sp_payload p !! "text" = None.
Proof.
  intros Hc.
  rewrite (list_notes_listing_run dim embeddings_create similarity score_le
             None w eq_refl). cbn [fst]. rewrite Hc.
  destruct (mapM _ _) as [r|] eqn:Hm.
  - split; [done|]. intros (k & p & Hin & Hnone).
    apply mapM_Some_1, Forall2_fmap_l in Hm.
    apply list_elem_of_lookup in Hin as [i Hi].
    destruct (Forall2_lookup_l _ _ _ _ _ Hm Hi) as (y & _ & Hy).
    unfold listed_result, to_record in Hy. simpl in Hy.
    by rewrite Hnone in Hy.
  - split; [intros _|done].
    apply mapM_None_1, Exists_fmap, Exists_exists in Hm as ([k p] & Hin & Hp).
    exists k, p. split; [done|].
    unfold listed_result, to_record in Hp. simpl in Hp.
    by destruct (sp_payload p !! "text").
Qed.

Lemma length_points_by_id c : length (points_by_id c) = size (points c).
Proof.
  unfold points_by_id. rewrite merge_sort_Permutation.
  apply length_map_to_list.
Qed.

(** X7.  When [find_notes] returns, with or without a query, it returns
    as many results as there are points in the collection, up to ten. *)
Theorem find_notes_count w c query r :
  qdrant w !! NAME = Some c →
  (find_notes query w).1 = Return r →
  length r = (10 `min` size (points c))%nat.
Proof.
  intros Hc. destruct (truthy query) eqn:Hq.
  - destruct query as [s|]; [|done].
    pose proof (truthy_Some s Hq) as Hs.
    rewrite (list_notes_search_run dim embeddings_create similarity
               score_le s w Hs).
    destruct (embedding_of embeddings_create s) as [qv|]; [|done].
    cbn [fst]. rewrite Hc. destruct (fits dim c qv); [|done].
    destruct (mapM _ _) as [r'|] eqn:Hm; [|done].
    intros [= ->]. apply length_mapM in Hm. rewrite <- Hm.
    unfold nearest. rewrite length_take, merge_sort_Permutation, length_fmap.
    by rewrite length_points_by_id.
  - rewrite (list_notes_listing_run dim embeddings_create similarity
               score_le query w Hq). cbn [fst]. rewrite Hc.
    destruct (mapM _ _) as [r'|] eqn:Hm; [|done].
    intros [= ->]. apply length_mapM in Hm. rewrite <- Hm, length_fmap.
    unfold first_page. rewrite length_take. by rewrite length_points_by_id.
Qed.

(** X8.  When the collection holds at most ten points and [find_notes]
    returns, with or without a query, every stored note is among the
    results. *)
Theorem find_notes_covers_small_collection w c query r :
  qdrant w !! NAME = Some c →
  (size (points c) ≤ 10)%nat →
  (find_notes query w).1 = Return r →
  ∀ k p, points c !! k = Some p →
         ∃ res, res ∈ r ∧ sp_payload p !! "text" = Some (text res).
Proof.
  intros Hc Hsize Hr k p Hp. apply elem_of_points_by_id in Hp.
  destruct (truthy query) eqn:Hq.
  - destruct query as [s|]; [|done].
    pose proof (truthy_Some s Hq) as Hs.
    rewrite (list_notes_search_run dim embeddings_create similarity
               score_le s w Hs) in Hr.
    destruct (embedding_of embeddings_create s) as [qv|]; [|done].
    cbn [fst] in Hr. rewrite Hc in Hr. destruct (fits dim c qv); [|done].
    destruct (mapM _ _) as [r'|] eqn:Hm; [|done].
    injection Hr as ->. apply mapM_Some_1 in Hm.
    set (d := vp_distance (config c)) in *.
    assert (to_scored similarity d qv (k, p)
              ∈ nearest similarity score_le c qv 10) as Hin.
    { unfold nearest. rewrite take_ge.
      - rewrite merge_sort_Permutation. by apply list_elem_of_fmap_2.
      - rewrite merge_sort_Permutation, length_fmap, length_points_by_id.
        change (Z.to_nat 10) with 10%nat. lia. }
    apply list_elem_of_lookup in Hin as [i Hi].
    destruct (Forall2_lookup_l _ _ _ _ _ Hm Hi) as (y & Hy & Hres).
    exists y. split; [by eapply list_elem_of_lookup_2|].
    unfold scored_result, to_scored in Hres. simpl in Hres.
    destruct (sp_payload p !! "text"); simpl in Hres; [|done].
    by injection Hres as <-.
  - rewrite (list_notes_listing_run dim embeddings_create similarity
               score_le query w Hq) in Hr. cbn [fst] in Hr. rewrite Hc in Hr.
    destruct (mapM _ _) as [r'|] eqn:Hm; [|done].
    injection Hr as ->. apply mapM_Some_1, Forall2_fmap_l in Hm.
    assert ((k, p) ∈ first_page c 10) as Hin.
    { unfold first_page. rewrite take_ge; [done|].
      rewrite length_points_by_id. change (Z.to_nat 10) with 10%nat. lia. }
    apply list_elem_of_lookup in Hin as [i Hi].
    destruct (Forall2_lookup_l _ _ _ _ _ Hm Hi) as (y & Hy & Hres).
    exists y. split; [by eapply list_elem_of_lookup_2|].
    unfold listed_result, to_record in Hres. simpl in Hres.
    destruct (sp_payload p !! "text"); simpl in Hres; [|done].
    by injection Hres as <-.
Qed.

End Journal.

(** * Properties of the page script *)

Section PageProperties.

Context {Vec Score : Type}.
Variable dim : Vec → Z.
Variable embeddings_create : EmbeddingRequest → option (list Vec).
Variable similarity : Distance → Vec → Vec → Score.
Variable score_le : relation Score.
Context `{!RelDecision score_le}.
Variable transcriptions_create : TranscriptionRequest → option string.
Variable md5_hexdigest : bytes → string.
Variable score_truthy : Score → bool.
Variable score_str : Score → string.
Variable add_note_to_db_any : Value → @M Vec unit.

Implicit Types (p : @Page Vec) (f : Frame) (v : Value).

Local Abbreviation add_note := (add_note_to_db dim embeddings_create).
Local Abbreviation find_notes :=
  (list_notes_from_db dim embeddings_create similarity score_le).
Local Abbreviation run_add_tab :=
  (add_tab dim embeddings_create transcriptions_create md5_hexdigest
     add_note_to_db_any).
Local Abbreviation run_search_tab :=
  (search_tab dim embeddings_create similarity score_le score_truthy score_str).
Local Abbreviation run_app :=
  (app dim embeddings_create similarity score_le transcriptions_create
     md5_hexdigest score_truthy score_str add_note_to_db_any).
Local Abbreviation run_app_body :=
  (app_body dim embeddings_create similarity score_le transcriptions_create
     md5_hexdigest score_truthy score_str add_note_to_db_any).
Local Abbreviation NAME := QDRANT_COLLECTION_NAME.

(** Unfolding the monad and the primitive operations of the script. *)
Ltac script_unfold :=
  cbv [mbind mret Script_bind Script_ret script_bind script_ret interrupt
       session_get session_item session_has session_set session_setdefault
       show variable md5_of put_file open_wb file_write bytes_io
       get_openai_client entry with_session with_shown with_services
       with_files with_transcriptions].

Ltac page_simpl :=
  cbn [session_state qdrant_client_cached shown files transcriptions services
       fst snd from_option id negb andb].

Ltac session_lookup :=
  match goal with
  | |- context [@lookup _ _ _ _ ?k (@insert _ _ _ _ ?k ?x ?m)] =>
      rewrite (lookup_insert_eq m k x)
  | |- context [@lookup _ _ _ _ ?k' (@insert _ _ _ _ ?k ?x ?m)] =>
      rewrite (lookup_insert_ne m k k' x) by done
  | H : session_state ?p !! ?k = _ |- context [session_state ?p !! ?k] =>
      rewrite H
  | H : @lookup _ _ _ _ ?k ?m = _ |- context [@lookup _ _ _ _ ?k ?m] =>
      rewrite H
  end.

Ltac session_step := page_simpl; session_lookup; page_simpl.

Ltac script_run :=
  script_unfold; page_simpl;
  repeat first
    [ session_step
    | progress change (truthy_value (VStr "")) with false
    | progress change (truthy_value VNone) with false ];
  page_simpl.

(** The screen as one list. *)
Ltac screen := rewrite <- ?(assoc_L (++)); cbn [app].

Lemma app_after_gate f p :
  run_app f p =
    match api_key_gate f p with
    | (Completed _, p') => run_app_body f p'
    | (Interrupted i, p') => (Interrupted i, p')
    end.
Proof. reflexivity. Qed.

(** X9.  The first lines of the script either end the run, by [st.stop()]
    or [st.rerun()], before anything else happens, or leave a non-empty
    key in the session: without a key the page makes no call to the store
    or to OpenAI and writes no file. *)
Theorem app_needs_api_key f p :
  ∃ r p',
    api_key_gate f p = (r, p') ∧
    services p' = services p ∧
    transcriptions p' = transcriptions p ∧
    files p' = files p ∧
    match r with
    | Completed _ => truthy_value (entry "openai_api_key" p') = true
    | Interrupted i =>
        (i = StopScript ∨ i = RerunScript) ∧ run_app f p = (Interrupted i, p')
    end.
Proof.
  rewrite app_after_gate.
  unfold api_key_gate. script_unfold. page_simpl.
  destruct (truthy_value (default VNone (session_state p !! "openai_api_key")))
    eqn:Hkey; page_simpl.
  - rewrite Hkey. page_simpl. eexists _, _. by repeat split.
  - destruct (env f !! "OPENAI_API_KEY") as [o|].
    + session_step. page_simpl.
      destruct (truthy_value match o with Some s => VStr s | None => VNone end)
        eqn:Ho; page_simpl; eexists _, _; (split; [reflexivity|]); page_simpl.
      * do 3 (split; [done|]). session_step. by page_simpl.
      * do 3 (split; [done|]). split; [by left|done].
    + session_step.
      destruct (truthy_value (VStr (api_key_input f))) eqn:Htyped.
      * eexists _, _. split; [reflexivity|]. page_simpl.
        do 3 (split; [done|]). split; [by right|done].
      * page_simpl. session_step. page_simpl. rewrite Htyped. page_simpl.
        eexists _, _. split; [reflexivity|]. page_simpl.
        do 3 (split; [done|]). split; [by left|done].
Qed.

(** X10.  Typing a key, when neither the session nor the .env file has
    one, stores it in the session and restarts the run before anything
    else happens; from then on the first lines of the script let every run
    through, leaving the page as it is. *)
Theorem api_key_entry_takes_effect f p k :
  truthy_value (entry "openai_api_key" p) = false →
  env f !! "OPENAI_API_KEY" = None →
  api_key_input f = k →
  k ≠ "" →
  ∃ p',
    run_app f p = (Interrupted RerunScript, p') ∧
    session_state p' = <["openai_api_key" := VStr k]> (session_state p) ∧
    services p' = services p ∧
    ∀ f', api_key_gate f' p' = (Completed tt, p').
Proof.
  unfold entry. intros Hkey Henv Htyped Hk.
  assert (truthy_value (VStr k) = true) as Htruthy
    by (simpl; by rewrite bool_decide_eq_false_2).
  rewrite app_after_gate. unfold api_key_gate at 1. script_unfold. page_simpl.
  rewrite Hkey, Henv, Htyped. session_step. rewrite Htruthy.
  eexists. split; [reflexivity|]. page_simpl. do 2 (split; [done|]).
  intros f'. unfold api_key_gate. script_unfold. session_step.
  rewrite Htruthy. page_simpl. session_step. by rewrite Htruthy.
Qed.

(** X11.  When the session has no key and the .env file has an entry
    OPENAI_API_KEY, that entry goes into the session and nothing is shown:
    the key typed by the user is not looked at.  The run goes on if the
    entry is a non-empty string and stops otherwise. *)
Theorem env_key_precedence f p o :
  truthy_value (entry "openai_api_key" p) = false →
  env f !! "OPENAI_API_KEY" = Some o →
  let v := match o with Some s => VStr s | None => VNone end in
  api_key_gate f p =
    (if truthy_value v then Completed tt else Interrupted StopScript,
     with_session (<["openai_api_key" := v]> (session_state p)) p).
Proof.
  intros Hkey Henv v. unfold entry in Hkey.
  unfold api_key_gate. script_unfold. page_simpl.
  rewrite Hkey, Henv. session_step. fold v. by destruct (truthy_value v).
Qed.

Lemma session_setdefault_run key v p :
  session_setdefault key v p
    = (Completed tt, with_session (session_state p ∪ {[ key := v ]}) p).
Proof.
  unfold session_setdefault. script_unfold. page_simpl.
  destruct (session_state p !! key) as [old|] eqn:Hold.
  - rewrite bool_decide_eq_true_2 by eauto. page_simpl.
    destruct p as [s ? ? ? ? ?]. simpl in *. do 2 f_equal.
    apply map_eq. intros k. rewrite lookup_union.
    destruct (decide (key = k)) as [<-|Hne].
    + by rewrite Hold, lookup_singleton_eq.
    + rewrite lookup_singleton_ne by done. by destruct (s !! k).
  - rewrite bool_decide_eq_false_2 by (by intros [? ?]).
    page_simpl. do 2 f_equal. by apply insert_union_singleton_r.
Qed.

(** X12.  The initialisation of the session state gives the four draft
    entries their empty values where they are missing and keeps every
    entry the session already has, so drafts survive the re-runs of the
    script. *)
Theorem init_session_state_keeps_values p :
  init_session_state p
    = (Completed tt, with_session (session_state p ∪ session_defaults) p).
Proof.
  unfold init_session_state.
  repeat (change (mbind ?k ?m) with (script_bind m k); unfold script_bind;
          rewrite session_setdefault_run; unfold with_session; page_simpl).
  do 2 f_equal. rewrite <- !(assoc_L (∪)). by f_equal.
Qed.

(** X13.  The client of the store is built from the .env file on first
    use: when QDRANT_URL or QDRANT_API_KEY is missing there, the
    bootstrap, [add_note] and [find_notes] end the run with a [KeyError]
    before any call to the store.  Once built, the client is kept and the
    file is not read again. *)
Theorem store_client_from_env f p t query :
  (qdrant_client_cached p = false →
   env f !! "QDRANT_URL" = None ∨ env f !! "QDRANT_API_KEY" = None →
   page_assure_db_collection_exists f p = (Interrupted (Uncaught KeyError), p) ∧
   page_add_note_to_db dim embeddings_create f t p
     = (Interrupted (Uncaught KeyError), p) ∧
   page_list_notes_from_db dim embeddings_create similarity score_le f query p
     = (Interrupted (Uncaught KeyError), p)) ∧
  (qdrant_client_cached p = true →
   page_assure_db_collection_exists f p = lift assure_db_collection_exists p ∧
   page_add_note_to_db dim embeddings_create f t p = lift (add_note t) p ∧
   page_list_notes_from_db dim embeddings_create similarity score_le f query p
     = lift (find_notes query) p).
Proof.
  unfold page_assure_db_collection_exists, page_add_note_to_db,
    page_list_notes_from_db, get_qdrant_client.
  script_unfold. split; intros Hcache; rewrite Hcache; [|done].
  intros [Hurl|Hkey].
  - by rewrite Hurl.
  - rewrite Hkey. by destruct (env f !! "QDRANT_URL").
Qed.

(** ** The tab that adds notes *)

Ltac add_tab_unfold :=
  cbv [add_tab recorder_block uploader_block save_voice_block
       transcribe_block save_text_block].

(** X14.  Saving the voice note in a run with neither a recording nor an
    uploaded file ends the run with a [NameError] for [note_title]: no
    file is written and the page is as it was. *)
Theorem voice_save_needs_audio f p :
  recording f = None →
  upload f = None →
  save_voice_clicked f = true →
  run_add_tab f p = interrupt (NameError "note_title") p.
Proof.
  intros Hrec Hup Hsave.
  add_tab_unfold. rewrite Hrec, Hup, Hsave. by script_run.
Qed.

Lemma differs_from_same s : differs_from (VStr s) s = false.
Proof. simpl. by rewrite bool_decide_eq_true_2. Qed.

Lemma truthy_VStr s : s ≠ "" → truthy_value (VStr s) = true.
Proof. intros Hs. simpl. by rewrite bool_decide_eq_false_2. Qed.

(** X15.  A recording whose digest is not the one the session knows
    discards both drafts: the transcript and the note text are emptied and
    the new digest is remembered.  The text area is not shown, and nothing
    is saved in that run even if the save button of the text note is
    clicked. *)
Theorem new_recording_discards_drafts f p mp3 known :
  recording f = Some mp3 →
  upload f = None →
  save_voice_clicked f = false →
  transcribe_clicked f = false →
  session_state p !! "note_audio_bytes_md5" = Some known →
  differs_from known (md5_hexdigest mp3) = true →
  run_add_tab f p =
    (Completed tt,
     with_shown [StAudio (VBytes mp3) "audio/mp3";
                 StWrite "Nagranie zostało ukończone"]
       (with_session
          (<["note_audio_bytes_md5" := VStr (md5_hexdigest mp3)]>
             (<["note_text" := VStr ""]>
                (<["note_audio_text" := VStr ""]>
                   (<["note_audio_bytes" := VBytes mp3]> (session_state p)))))
          p)).
Proof.
  intros Hrec Hup Hvoice Htr Hknown Hdiff.
  add_tab_unfold. rewrite Hrec, Hup, Hvoice, Htr.
  script_run. rewrite Hdiff. script_run. unfold with_shown, with_session.
  page_simpl. by screen.
Qed.

(** X16.  An uploaded file replaces the audio of the session and nothing
    else: the transcript of the audio that was there before and its digest
    stay, whatever the digest of the upload, and the text area still shows
    that transcript. *)
Theorem upload_keeps_transcript f p content transcript :
  recording f = None →
  upload f = Some content →
  save_voice_clicked f = false →
  transcribe_clicked f = false →
  save_text_clicked f = false →
  session_state p !! "note_audio_text" = Some (VStr transcript) →
  transcript ≠ "" →
  run_add_tab f p =
    (Completed tt,
     with_shown [StAudio (VBytes content) "audio/mp3";
                 StWrite "Wgrano plik audio."]
       (with_session
          (<["note_text" := VStr (text_area f)]>
             (<["note_audio_bytes" := VBytes content]> (session_state p)))
          p)).
Proof.
  intros Hrec Hup Hvoice Htr Hsave Htext Hne.
  add_tab_unfold. rewrite Hrec, Hup, Hvoice, Htr, Hsave.
  script_run. rewrite (truthy_VStr _ Hne). script_run.
  rewrite andb_false_r. unfold with_shown, with_session. page_simpl.
  by screen.
Qed.

Lemma lift_run {A} (m : M A) p :
  lift m p =
    (match (m (services p)).1 with
     | Return a => Completed a
     | Raise e => Interrupted (Uncaught e)
     end, with_services (m (services p)).2 p).
Proof. unfold lift, with_services. by destruct (m (services p)) as [[a|e] w]. Qed.

Lemma page_add_note_to_db_cached f t p :
  qdrant_client_cached p = true →
  page_add_note_to_db dim embeddings_create f t p = lift (add_note t) p.
Proof.
  intros Hc. unfold page_add_note_to_db, get_qdrant_client. script_unfold.
  by rewrite Hc.
Qed.

(** X17.  With a recording in the recorder and its transcript in the
    session, clicking the save button of the text note calls [add_note]
    with the content of the text area.  When the call returns, a toast
    and a download button for that text, named after the recording, are
    shown; when it raises, the run ends there without them. *)
Theorem save_text_adds_text_area f p mp3 transcript t :
  recording f = Some mp3 →
  upload f = None →
  save_voice_clicked f = false →
  transcribe_clicked f = false →
  save_text_clicked f = true →
  text_area f = t →
  t ≠ "" →
  session_state p !! "note_audio_bytes_md5" = Some (VStr (md5_hexdigest mp3)) →
  session_state p !! "note_audio_text" = Some (VStr transcript) →
  transcript ≠ "" →
  qdrant_client_cached p = true →
  let added := add_note t (services p) in
  let page es :=
    with_shown
      ([StAudio (VBytes mp3) "audio/mp3"; StWrite "Nagranie zostało ukończone"]
         ++ es)
      (with_services added.2
         (with_session
            (<["note_text" := VStr t]>
               (<["note_audio_bytes" := VBytes mp3]> (session_state p))) p)) in
  run_add_tab f p =
    match added.1 with
    | Return _ =>
        (Completed tt,
         page [StToast "Notatka tekstowa zapisana" "🎉";
               StDownloadButton "Ściągnij notatkę tekstową" (VStr t)
                 (recording_title f ++ ".txt") "text/plain"])
    | Raise e => (Interrupted (Uncaught e), page [])
    end.
Proof.
  intros Hrec Hup Hvoice Htr Hsave Harea Ht Hmd5 Htext Hne Hcache added page.
  add_tab_unfold. rewrite Hrec, Hup, Hvoice, Htr, Hsave, Harea.
  script_run. rewrite differs_from_same. script_run.
  rewrite (truthy_VStr _ Hne). script_run.
  rewrite (truthy_VStr _ Ht). script_run.
  rewrite page_add_note_to_db_cached by done. rewrite lift_run.
  page_simpl. fold added. subst page.
  destruct added.1; script_run; by screen.
Qed.

(** X18.  The same click in a run with neither a recording nor an
    uploaded file (the transcript being still in the session) stores the
    note and shows the toast, then ends the run with a [NameError] for
    [note_title], where the download button would be built. *)
Theorem save_text_without_audio f p transcript t w' :
  recording f = None →
  upload f = None →
  save_voice_clicked f = false →
  transcribe_clicked f = false →
  save_text_clicked f = true →
  text_area f = t →
  t ≠ "" →
  session_state p !! "note_audio_text" = Some (VStr transcript) →
  transcript ≠ "" →
  qdrant_client_cached p = true →
  add_note t (services p) = (Return tt, w') →
  run_add_tab f p =
    (Interrupted (NameError "note_title"),
     with_shown [StToast "Notatka tekstowa zapisana" "🎉"]
       (with_services w'
          (with_session (<["note_text" := VStr t]> (session_state p)) p))).
Proof.
  intros Hrec Hup Hvoice Htr Hsave Harea Ht Htext Hne Hcache Hadd.
  add_tab_unfold. rewrite Hrec, Hup, Hvoice, Htr, Hsave, Harea.
  script_run. rewrite (truthy_VStr _ Hne). script_run.
  rewrite (truthy_VStr _ Ht). script_run.
  rewrite page_add_note_to_db_cached by done. rewrite lift_run.
  page_simpl. rewrite Hadd. by script_run.
Qed.

(** X19.  Saving the voice note with a recording in the recorder writes
    the recording to the file named after it, shows a toast and a download
    button for it, and calls no service; the transcript of the session is
    not lost. *)
Theorem voice_save_writes_recording f p mp3 known transcript note :
  recording f = Some mp3 →
  upload f = None →
  save_voice_clicked f = true →
  transcribe_clicked f = false →
  save_text_clicked f = false →
  session_state p !! "note_audio_bytes_md5" = Some known →
  differs_from known (md5_hexdigest mp3) = false →
  session_state p !! "note_audio_text" = Some transcript →
  session_state p !! "note_text" = Some note →
  ∃ s',
    run_add_tab f p =
      (Completed tt,
       with_shown
         [StAudio (VBytes mp3) "audio/mp3";
          StWrite "Nagranie zostało ukończone";
          StToast "Notatka głowa zapisana" "🎉";
          StDownloadButton "Ściągnij notatkę" (VBytes mp3)
            (recording_title f ++ ".mp3") "audio/mp3"]
         (with_files (<[(recording_title f ++ ".mp3")%string := mp3]> (files p))
            (with_session s' p))) ∧
    s' !! "note_audio_text" = Some transcript ∧
    s' !! "note_audio_bytes" = Some (VBytes mp3).
Proof.
  intros Hrec Hup Hvoice Htr Hsave Hknown Hsame Htext Hnote.
  add_tab_unfold. rewrite Hrec, Hup, Hvoice, Htr, Hsave.
  script_run. rewrite Hsame. script_run. rewrite Hsame. script_run.
  rewrite insert_insert_eq.
  destruct (truthy_value transcript); script_run; rewrite ?andb_false_r;
    (eexists; split; [screen; reflexivity|]); by script_run.
Qed.

(** X20.  In a run in which the transcribe button is the one clicked,
    whatever the recorder and the uploader hold, the audio the run works
    on (the uploaded file, else the recording, else the audio of the
    session) is sent, under the file name audio.mp3, to the model
    whisper-1.  The answer becomes the transcript and, when it is not
    empty, the text area becomes the note text; when the call raises, the
    run ends there and the drafts are as the recorder left them. *)
Theorem transcribe_updates_transcript f p audio key known stored note :
  save_voice_clicked f = false →
  transcribe_clicked f = true →
  save_text_clicked f = false →
  session_state p !! "openai_api_key" = Some key →
  session_state p !! "note_audio_bytes_md5" = Some known →
  session_state p !! "note_audio_bytes" = Some stored →
  session_state p !! "note_text" = Some note →
  current_audio f stored = VBytes audio →
  let s := heard md5_hexdigest f (session_state p) in
  let page s' :=
    with_transcriptions [transcription_request audio]
      (with_shown (heard_shown f) (with_session s' p)) in
  run_add_tab f p =
    match transcriptions_create (transcription_request audio) with
    | Some transcript =>
        (Completed tt,
         page (if truthy_value (VStr transcript)
               then <["note_text" := VStr (text_area f)]>
                      (<["note_audio_text" := VStr transcript]> s)
               else <["note_audio_text" := VStr transcript]> s))
    | None => (Interrupted TranscriptionError, page s)
    end.
Proof.
  intros Hvoice Htr Hsave Hkey Hmd5 Hstored Hnote Hcur s page.
  unfold current_audio in Hcur. subst s page. unfold heard, heard_shown.
  add_tab_unfold. rewrite Hvoice, Htr, Hsave, Hmd5.
  unfold transcribe_audio, openai_transcriptions_create.
  destruct (recording f) as [mp3|], (upload f) as [content|];
    [injection Hcur as ->|injection Hcur as ->|injection Hcur as ->|subst stored];
    script_run;
    try (match goal with
         | |- context [differs_from known ?d] =>
             destruct (differs_from known d)
         end; script_run);
    fold (transcription_request audio);
    (destruct (transcriptions_create (transcription_request audio))
       as [transcript|];
     [|screen; by rewrite ?(right_id_L [] (++))]);
    script_run;
    (destruct (truthy_value (VStr transcript)); script_run;
     rewrite ?andb_false_r; screen; by rewrite ?(right_id_L [] (++))).
Qed.

(** ** The tab that searches *)

Lemma for_each_show_result (r : list (SearchResult Score)) p :
  for_each (show_result score_truthy score_str) r p
    = (Completed tt, with_shown (r ≫= result_lines score_truthy score_str) p).
Proof.
  revert p. induction r as [|res r IH]; intros p.
  - unfold with_shown. simpl. rewrite (right_id_L [] (++)). by destruct p.
  - cbn [for_each]. change (@mbind (@Script Vec) _ _ _ ?k ?m) with (script_bind m k).
    unfold script_bind at 1.
    assert (show_result score_truthy score_str res p
              = (Completed tt,
                 with_shown (result_lines score_truthy score_str res) p)) as ->.
    { unfold show_result, result_lines. script_unfold. page_simpl.
      destruct (score res) as [x|]; [destruct (score_truthy x)|];
        page_simpl; by screen. }
    rewrite IH. unfold with_shown. page_simpl. do 2 f_equal.
    by rewrite <- (assoc_L (++)).
Qed.

Lemma page_list_notes_from_db_cached f query p :
  qdrant_client_cached p = true →
  page_list_notes_from_db dim embeddings_create similarity score_le f query p
    = lift (find_notes query) p.
Proof.
  intros Hc. unfold page_list_notes_from_db, get_qdrant_client. script_unfold.
  by rewrite Hc.
Qed.

(** X21.  The search tab does nothing until its button is clicked.  Then
    it calls [find_notes] with the content of the search box and shows
    the results in the order returned, each with its text and, when its
    score is present and true, its score; when [find_notes] raises, the
    run ends there and nothing is shown. *)
Theorem search_tab_shows_results f p :
  (search_clicked f = false → run_search_tab f p = (Completed tt, p)) ∧
  (search_clicked f = true →
   qdrant_client_cached p = true →
   let found := find_notes (Some (query_input f)) (services p) in
   run_search_tab f p =
     match found.1 with
     | Return r =>
         (Completed tt,
          with_shown (r ≫= result_lines score_truthy score_str)
            (with_services found.2 p))
     | Raise e => (Interrupted (Uncaught e), with_services found.2 p)
     end).
Proof.
  unfold search_tab. split; intros Hclick; rewrite Hclick; [done|].
  intros Hcache.
  change (@mbind (@Script Vec) _ _ _ ?k ?m) with (script_bind m k).
  unfold script_bind.
  rewrite page_list_notes_from_db_cached by done. rewrite lift_run.
  destruct (find_notes _ _).1 as [r|e]; [|done].
  by rewrite for_each_show_result.
Qed.

Lemma listing_scores_absent (w : @World Vec) query r :
  truthy query = false →
  (find_notes query w).1 = Return r →
  Forall (λ res, score res = None) r.
Proof.
  intros Hq.
  rewrite (list_notes_listing_run dim embeddings_create similarity score_le
             query w Hq). cbn [fst].
  destruct (qdrant w !! NAME) as [c|]; [|done].
  destruct (mapM _ _) as [r'|] eqn:Hm; [|done].
  intros [= ->]. apply mapM_Some_1 in Hm.
  eapply Forall2_Forall_r; [exact Hm|].
  apply Forall_forall. intros x _ y Hy. unfold listed_result in Hy.
  destruct (rec_payload x !! "text"); simpl in Hy; [|done].
  by injection Hy as <-.
Qed.

(** X22.  Clicking search with an empty search box lists the notes: one
    line per note returned, at most ten, and no score line. *)
Theorem search_tab_lists_notes f p r w' :
  search_clicked f = true →
  query_input f = "" →
  qdrant_client_cached p = true →
  find_notes (Some "") (services p) = (Return r, w') →
  run_search_tab f p =
    (Completed tt,
     with_shown ((λ res, StMarkdown ("**Notatka:** " ++ text res)) <$> r)
       (with_services w' p)) ∧
  (length r ≤ 10)%nat.
Proof.
  intros Hclick Hquery Hcache Hfound.
  assert (Forall (λ res, score res = None) r) as Hscores.
  { apply (listing_scores_absent (services p) (Some "")); [done|].
    by rewrite Hfound. }
  split.
  - unfold search_tab. rewrite Hclick, Hquery.
    change (@mbind (@Script Vec) _ _ _ ?k ?m) with (script_bind m k). unfold script_bind.
    rewrite page_list_notes_from_db_cached by done. rewrite lift_run, Hfound.
    cbn [fst snd]. rewrite for_each_show_result. do 2 f_equal.
    clear Hfound. induction Hscores as [|res r Hres _ IH]; [done|].
    cbn [mbind list_bind fmap list_fmap]. rewrite <- IH.
    unfold result_lines at 1. by rewrite Hres.
  - pose proof (list_notes_listing_run dim embeddings_create similarity
                  score_le (Some "") (services p) eq_refl) as R.
    rewrite Hfound in R. injection R as Hr _.
    destruct (qdrant (services p) !! NAME) as [c|]; [|done].
    destruct (mapM _ _) as [r'|] eqn:Hm; [|done].
    injection Hr as ->. apply length_mapM in Hm. rewrite <- Hm, length_fmap.
    apply (length_first_page c 10).
Qed.

(** ** What a run leaves alone *)

Lemma keeps_bind {A B C} (part : @Page Vec → C) (m : Script A)
    (k : A → Script B) :
  keeps part m → (∀ a, keeps part (k a)) → keeps part (m ≫= k).
Proof.
  intros Hm Hk p. change (m ≫= k) with (script_bind m k). unfold script_bind.
  specialize (Hm p). destruct (m p) as [[a|i] p1]; simpl in Hm.
  - by rewrite Hk.
  - done.
Qed.

(** The operations of the script that do not touch the component at
    hand. *)
Ltac keeps_operation :=
  let p := fresh "p" in
  intros p;
  cbv [script_ret interrupt session_get session_item session_has session_set
       show variable md5_of put_file open_wb file_write bytes_io
       openai_transcriptions_create get_qdrant_client lift];
  repeat case_match; reflexivity.

Ltac keeps_run :=
  repeat first
    [ apply keeps_bind; [|intros ?]
    | match goal with
      | |- keeps _ (if ?b then _ else _) => destruct b
      | |- keeps _ (match ?x with _ => _ end) => destruct x
      end
    | solve [keeps_operation] ].

Lemma recorder_block_keeps_services f :
  keeps (@services Vec) (recorder_block md5_hexdigest f).
Proof. unfold recorder_block. keeps_run. Qed.

Lemma uploader_block_keeps_services f title :
  keeps (@services Vec) (uploader_block f title).
Proof. unfold uploader_block. keeps_run. Qed.

Lemma save_voice_block_keeps_services f title :
  keeps (@services Vec) (save_voice_block md5_hexdigest f title).
Proof. unfold save_voice_block. keeps_run. Qed.

Lemma transcribe_block_keeps_services f :
  keeps (@services Vec) (transcribe_block transcriptions_create f).
Proof. unfold transcribe_block, transcribe_audio, get_openai_client. keeps_run. Qed.

Lemma save_text_block_keeps_session f title :
  keeps (@session_state Vec) (save_text_block dim embeddings_create add_note_to_db_any f title).
Proof. unfold save_text_block, page_add_note_to_db. keeps_run. Qed.

(** The tab either ends before its last block, without a call, or runs
    its last block from a page with the same world. *)
Lemma add_tab_before_save_text f p :
  services (run_add_tab f p).2 = services p ∨
  ∃ title p1,
    services p1 = services p ∧
    run_add_tab f p = save_text_block dim embeddings_create add_note_to_db_any f title p1.
Proof.
  unfold add_tab.
  repeat (change (@mbind (@Script Vec) _ _ _ ?k ?m) with (script_bind m k)).
  unfold script_bind.
  pose proof (recorder_block_keeps_services f p) as H1.
  destruct (recorder_block _ f p) as [[t1|i] p1]; simpl in H1; [|by left].
  pose proof (uploader_block_keeps_services f t1 p1) as H2.
  destruct (uploader_block f t1 p1) as [[t2|i] p2]; simpl in H2;
    [|left; simpl; congruence].
  pose proof (save_voice_block_keeps_services f t2 p2) as H3.
  destruct (save_voice_block _ f t2 p2) as [[[]|i] p3]; simpl in H3;
    [|left; simpl; congruence].
  pose proof (transcribe_block_keeps_services f p3) as H4.
  destruct (transcribe_block _ f p3) as [[[]|i] p4]; simpl in H4;
    [|left; simpl; congruence].
  right. exists t2, p4. split; [congruence|done].
Qed.

(** X23.  The tab that adds notes reaches the store and the embedding
    service only to save a text note: in a run in which the save button of
    the text note is not clicked, or which ends with an empty note text,
    it makes no call, whatever else the user does and however the run
    ends. *)
Theorem add_tab_saves_only_on_request f p :
  save_text_clicked f = false ∨
    truthy_value (entry "note_text" (run_add_tab f p).2) = false →
  services (run_add_tab f p).2 = services p.
Proof.
  intros Hidle.
  destruct (add_tab_before_save_text f p) as [?|(title & p1 & Hw & Hrun)];
    [done|].
  rewrite Hrun in Hidle |- *. rewrite <- Hw. unfold entry in Hidle.
  rewrite (save_text_block_keeps_session f title p1) in Hidle.
  unfold save_text_block in *. revert Hidle. script_unfold.
  destruct (session_state p1 !! "note_text") as [v|]; [|done].
  page_simpl. intros [-> | ->]; [by rewrite andb_false_r|done].
Qed.

(** X24.  The first run of a new session with a complete .env file, in
    which the user records, uploads and transcribes nothing and does not
    search, completes: the session gets the key of the file and the four
    empty drafts, only the title is shown, and the store, which had no
    collection of notes, gets an empty one of the size of the embeddings,
    after one existence check.  Clicking the save button of the text note
    changes nothing in that run. *)
Theorem first_run_bootstraps f p key :
  session_state p = ∅ →
  qdrant_client_cached p = false →
  env f !! "OPENAI_API_KEY" = Some (Some key) →
  key ≠ "" →
  is_Some (env f !! "QDRANT_URL") →
  is_Some (env f !! "QDRANT_API_KEY") →
  recording f = None →
  upload f = None →
  save_voice_clicked f = false →
  transcribe_clicked f = false →
  search_clicked f = false →
  qdrant (services p) !! NAME = None →
  let cfg := {| vp_size := EMBEDDING_DIM; vp_distance := COSINE |} in
  run_app f p =
    (Completed tt,
     {| session_state := <["openai_api_key" := VStr key]> session_defaults;
        qdrant_client_cached := true;
        shown := shown p ++ [StTitle "Zoe LAB 😘"];
        files := files p;
        transcriptions := transcriptions p;
        services :=
          {| qdrant := <[NAME := {| config := cfg; points := ∅ |}]>
                         (qdrant (services p));
             calls := calls (services p)
                        ++ [CollectionExists NAME; CreateCollection NAME cfg] |}
     |}).
Proof.
  intros Hs Hc Hkey Hk [url Hurl] [secret Hsecret] Hrec Hup Hvoice Htr Hsearch
    Hcoll cfg.
  assert (∀ d : gmap string Value,
            (<["openai_api_key" := VStr key]> (∅ : gmap string Value) ∪ d)
              !! "note_text" = d !! "note_text") as Hnote.
  { intros d. rewrite lookup_union_r; [done|]. by rewrite lookup_insert_ne. }
  assert (∀ d : gmap string Value,
            (<["openai_api_key" := VStr key]> (∅ : gmap string Value) ∪ d)
              !! "note_audio_text" = d !! "note_audio_text") as Haudio.
  { intros d. rewrite lookup_union_r; [done|]. by rewrite lookup_insert_ne. }
  assert (∀ q : @Page Vec,
            init_session_state q
              = (Completed tt,
                 with_session (session_state q ∪ session_defaults) q)) as Hinit.
  { intros q. unfold init_session_state.
    repeat (change (mbind ?k ?m) with (script_bind m k); unfold script_bind;
            rewrite session_setdefault_run; unfold with_session; page_simpl).
    do 2 f_equal. rewrite <- !(assoc_L (∪)). by f_equal. }
  rewrite app_after_gate.
  unfold api_key_gate. script_unfold. page_simpl.
  rewrite Hs, lookup_empty. page_simpl.
  change (truthy_value VNone) with false. page_simpl.
  rewrite Hkey. session_step. rewrite (truthy_VStr key Hk). page_simpl.
  unfold app_body.
  change (@mbind (@Script Vec) _ _ _ ?k ?m) with (script_bind m k).
  unfold script_bind at 1. rewrite Hinit. unfold with_session. page_simpl.
  unfold page_assure_db_collection_exists, get_qdrant_client, search_tab.
  add_tab_unfold. rewrite Hrec, Hup, Hvoice, Htr, Hsearch.
  script_unfold. page_simpl. rewrite Hc, Hurl, Hsecret. page_simpl.
  rewrite Hs, lift_run. page_simpl.
  rewrite assure_db_collection_exists_run, Hcoll.
  cbv [with_services]. page_simpl.
  rewrite Haudio.
  change (session_defaults !! "note_audio_text") with (Some (VStr "")).
  page_simpl. change (truthy_value (VStr "")) with false. page_simpl.
  rewrite Hnote.
  change (session_defaults !! "note_text") with (Some (VStr "")).
  page_simpl. change (truthy_value (VStr "")) with false. page_simpl.
  by do 2 f_equal.
Qed.

End PageProperties.

(** * The further properties on concrete stores and pages *)

Section Runs.

Import Stub StubPage.

Local Abbreviation NAME := QDRANT_COLLECTION_NAME.

Lemma notes_listed_in_order_witness :
  ∃ w',
    (assure_db_collection_exists;; add_notes dim embed ["a"; "bb"; "ccc"])
      empty_world = (Return tt, w') ∧
    qdrant w' !! NAME
      = Some {| config := {| vp_size := 3072; vp_distance := COSINE |};
                points := list_to_map
                            (numbered 1 [("a", 1); ("bb", 2); ("ccc", 3)]) |} ∧
    (find_notes None w').1 = Return (listed <$> ["a"; "bb"; "ccc"]).
Proof.
  apply (notes_listed_in_order dim embed sim Z.le empty_world
           [("a", 1); ("bb", 2); ("ccc", 3)]).
  - by vm_compute.
  - repeat constructor.
Defined.

Lemma add_note_failure_atomic_witness :
  (add_note "" five_notes).1 = Raise EmbeddingError ∧
  qdrant (after (add_note "") five_notes) = qdrant five_notes.
Proof.
  split; [by vm_compute|].
  apply (add_note_failure_atomic dim embed five_notes "" EmbeddingError).
  by vm_compute.
Defined.

Lemma missing_collection_fails_first_witness :
  add_note "x" empty_world = (Raise StoreError, logged [Count NAME] empty_world) ∧
  requests (calls_made (add_note "x") empty_world) = [] ∧
  upserted (calls_made (add_note "x") empty_world) = [] ∧
  find_notes None empty_world
    = (Raise StoreError, logged [Scroll NAME 10] empty_world).
Proof.
  apply (missing_collection_fails_first dim embed sim Z.le empty_world "x").
  by vm_compute.
Defined.

Lemma add_note_frame_witness :
  ∃ c1 v,
    qdrant (after (add_note "x") five_notes) !! NAME = Some c1 ∧
    config c1 = config (collection_of five_notes) ∧
    embedding_of embed "x" = Some v ∧
    points c1 !! 6 = Some {| sp_vector := v; sp_payload := {[ "text" := "x" ]} |}.
Proof.
  destruct (add_note_frame dim embed five_notes (collection_of five_notes) "x"
              (after (add_note "x") five_notes))
    as (c1 & v & H1 & H2 & H3 & H4 & _); [by vm_compute..|].
  by exists c1, v.
Defined.

Lemma find_notes_missing_text_witness :
  (find_notes None untitled_world).1 = Raise KeyError ∧
  ∃ k p, (k, p) ∈ first_page (collection_of untitled_world) 10 ∧
         sp_payload p !! "text" = None.
Proof.
  split; [by vm_compute|].
  apply (find_notes_missing_text dim embed sim Z.le untitled_world
           (collection_of untitled_world)); by vm_compute.
Defined.

Lemma find_notes_count_witness :
  ∃ r, (find_notes (Some "tea") three_notes).1 = Return r ∧ length r = 3%nat.
Proof.
  destruct (find_notes (Some "tea") three_notes).1 as [r|e] eqn:E;
    [|by vm_compute in E].
  exists r. split; [done|].
  apply (find_notes_count dim embed sim Z.le three_notes
           (collection_of three_notes) (Some "tea") r); [by vm_compute|exact E].
Defined.

Lemma find_notes_covers_small_collection_witness :
  ∃ r res, (find_notes None three_notes).1 = Return r ∧
           res ∈ r ∧ text res = "tea".
Proof.
  destruct (find_notes None three_notes).1 as [r|e] eqn:E;
    [|by vm_compute in E].
  destruct (find_notes_covers_small_collection dim embed sim Z.le three_notes
              (collection_of three_notes) None r) with
    (k := 3) (p := {| sp_vector := 3; sp_payload := {[ "text" := "tea" ]} |})
    as (res & Hin & Htext); [by vm_compute|vm_compute; lia|exact E|by vm_compute|].
  exists r, res. repeat split; [done|].
  cbn [sp_payload] in Htext. rewrite lookup_singleton_eq in Htext.
  by injection Htext.
Defined.

Lemma api_key_entry_takes_effect_witness :
  ∃ p',
    app (typing "sk-typed") (new_page empty_world) = (Interrupted RerunScript, p') ∧
    session_state p' = {[ "openai_api_key" := VStr "sk-typed" ]} ∧
    api_key_gate (typing "") p' = (Completed tt, p').
Proof.
  destruct (api_key_entry_takes_effect dim embed sim Z.le transcribe md5 nonzero
              pretty refuse (typing "sk-typed") (new_page empty_world) "sk-typed")
    as (p' & Hrun & Hsession & _ & Hnext); [by vm_compute..|].
  exists p'. split; [exact Hrun|]. split; [by rewrite Hsession|apply Hnext].
Defined.

Lemma env_key_precedence_witness :
  api_key_gate (idle full_env) (new_page empty_world)
    = (Completed tt,
       with_session {[ "openai_api_key" := VStr "sk-env" ]} (new_page empty_world)).
Proof.
  exact (env_key_precedence (idle full_env) (new_page empty_world) (Some "sk-env")
           eq_refl eq_refl).
Defined.

Lemma store_client_from_env_witness :
  page_assure_db_collection_exists (idle ∅) (new_page empty_world)
    = (Interrupted (Uncaught KeyError), new_page empty_world).
Proof.
  destruct (store_client_from_env dim embed sim Z.le (idle ∅)
              (new_page empty_world) "x" None) as [Hmissing _].
  apply Hmissing; [done|by left].
Defined.

Lemma voice_save_needs_audio_witness :
  add_tab (adding None None true false false "") (drafted bootstrapped)
    = (Interrupted (NameError "note_title"), drafted bootstrapped).
Proof.
  by apply (voice_save_needs_audio dim embed transcribe md5 refuse).
Defined.

Lemma new_recording_discards_drafts_witness :
  let p' := (add_tab (adding (Some other) None false false true "hello world")
               (drafted bootstrapped)).2 in
  entry "note_text" p' = VStr "" ∧
  entry "note_audio_text" p' = VStr "" ∧
  services p' = bootstrapped.
Proof.
  unfold add_tab.
  rewrite (new_recording_discards_drafts dim embed transcribe md5 refuse
             (adding (Some other) None false false true "hello world")
             (drafted bootstrapped) other (VStr (md5 hello)));
    by vm_compute.
Defined.

Lemma upload_keeps_transcript_witness :
  let p' := (add_tab (adding None (Some other) false false false "hello world")
               (drafted bootstrapped)).2 in
  entry "note_audio_bytes" p' = VBytes other ∧
  entry "note_audio_text" p' = VStr "hello" ∧
  entry "note_audio_bytes_md5" p' = VStr (md5 hello).
Proof.
  unfold add_tab.
  rewrite (upload_keeps_transcript dim embed transcribe md5 refuse
             (adding None (Some other) false false false "hello world")
             (drafted bootstrapped) other "hello");
    by vm_compute.
Defined.

Lemma save_text_adds_text_area_witness :
  let p' := (add_tab (adding (Some hello) None false false true "hello world!")
               (drafted bootstrapped)).2 in
  (find_notes None (services p')).1
    = Return [{| text := "hello world!"; score := None |}] ∧
  last (shown p')
    = Some (StDownloadButton "Ściągnij notatkę tekstową" (VStr "hello world!")
              "memo.txt" "text/plain").
Proof.
  unfold add_tab.
  rewrite (save_text_adds_text_area dim embed transcribe md5 refuse
             (adding (Some hello) None false false true "hello world!")
             (drafted bootstrapped) hello "hello" "hello world!");
    by vm_compute.
Defined.

Lemma save_text_without_audio_witness :
  add_tab (adding None None false false true "hello world") (drafted bootstrapped)
    = (Interrupted (NameError "note_title"),
       with_shown [StToast "Notatka tekstowa zapisana" "🎉"]
         (with_services (after (add_note "hello world") bootstrapped)
            (drafted bootstrapped))).
Proof.
  unfold add_tab.
  rewrite (save_text_without_audio dim embed transcribe md5 refuse
             (adding None None false false true "hello world")
             (drafted bootstrapped) "hello" "hello world"
             (after (add_note "hello world") bootstrapped));
    by vm_compute.
Defined.

Lemma voice_save_writes_recording_witness :
  ∃ s',
    add_tab (adding (Some hello) None true false false "hello world")
      (drafted bootstrapped)
      = (Completed tt,
         with_shown
           [StAudio (VBytes hello) "audio/mp3";
            StWrite "Nagranie zostało ukończone";
            StToast "Notatka głowa zapisana" "🎉";
            StDownloadButton "Ściągnij notatkę" (VBytes hello) "memo.mp3"
              "audio/mp3"]
           (with_files {[ "memo.mp3" := hello ]}
              (with_session s' (drafted bootstrapped)))) ∧
    s' !! "note_audio_text" = Some (VStr "hello") ∧
    s' !! "note_audio_bytes" = Some (VBytes hello).
Proof.
  by apply (voice_save_writes_recording dim embed transcribe md5 refuse
              (adding (Some hello) None true false false "hello world")
              (drafted bootstrapped) hello (VStr (md5 hello)) (VStr "hello")
              (VStr "hello world")).
Defined.

Lemma transcribe_updates_transcript_witness :
  let p' := (add_tab (adding (Some hello) (Some other) false true false "edited")
               (drafted bootstrapped)).2 in
  transcriptions p' = [transcription_request other] ∧
  entry "note_audio_bytes" p' = VBytes other ∧
  entry "note_audio_text" p' = VStr "other" ∧
  entry "note_text" p' = VStr "edited".
Proof.
  unfold add_tab.
  rewrite (transcribe_updates_transcript dim embed transcribe md5 refuse
             (adding (Some hello) (Some other) false true false "edited")
             (drafted bootstrapped) other (VStr "sk-env") (VStr (md5 hello))
             (VBytes hello) (VStr "hello world"));
    by vm_compute.
Defined.

Lemma search_tab_shows_results_witness :
  shown (search_tab (searching "tea") (drafted three_notes)).2
    = [StMarkdown "**Notatka:** tea";
       StMarkdown "**Notatka:** apple pie recipe";
       StMarkdown "*Dopasowanie:* -13";
       StMarkdown "**Notatka:** car engine repair";
       StMarkdown "*Dopasowanie:* -14"].
Proof.
  destruct (search_tab_shows_results dim embed sim Z.le nonzero pretty
              (searching "tea") (drafted three_notes)) as [_ Hrun].
  unfold search_tab. rewrite Hrun; by vm_compute.
Defined.

Lemma search_tab_lists_notes_witness :
  shown (search_tab (searching "") (drafted three_notes)).2
    = [StMarkdown "**Notatka:** apple pie recipe";
       StMarkdown "**Notatka:** car engine repair";
       StMarkdown "**Notatka:** tea"].
Proof.
  destruct (list_notes_from_db dim embed sim Z.le (Some "") three_notes)
    as [[r|e] w'] eqn:E; [|by vm_compute in E].
  destruct (search_tab_lists_notes dim embed sim Z.le nonzero pretty
              (searching "") (drafted three_notes) r w') as [Hrun _];
    [done..|exact E|].
  unfold search_tab. rewrite Hrun.
  vm_compute in E. injection E as <- <-. by vm_compute.
Defined.

Lemma add_tab_saves_only_on_request_witness :
  services (add_tab (adding (Some other) (Some hello) true true false "edited")
              (drafted five_notes)).2 = five_notes.
Proof.
  by apply (add_tab_saves_only_on_request dim embed transcribe md5 refuse
              (adding (Some other) (Some hello) true true false "edited")
              (drafted five_notes)); left.
Defined.

Lemma first_run_bootstraps_witness :
  app (idle full_env) (new_page empty_world)
    = (Completed tt,
       {| session_state :=
            <["openai_api_key" := VStr "sk-env"]> session_defaults;
          qdrant_client_cached := true;
          shown := [StTitle "Zoe LAB 😘"];
          files := ∅;
          transcriptions := [];
          services := bootstrapped |}).
Proof.
  unfold app.
  rewrite (first_run_bootstraps dim embed sim Z.le transcribe md5 nonzero
             pretty refuse (idle full_env) (new_page empty_world) "sk-env");
    [by vm_compute | by vm_compute | by vm_compute | by vm_compute
    | by vm_compute | | | by vm_compute ..].
  - by exists (Some "https://store").
  - by exists (Some "secret").
Defined.

End Runs.
